(** * PubMed paper fetcher: a shallow embedding of [pubmed_client.py]

    The client issues HTTP requests through a retrying executor, extracts
    bibliographic fields from an XML tree and writes the records to a CSV
    file.  The embedding keeps the Python control flow: effects (requests,
    log records, sleeps, file writes) are appended to a trace, exceptions are
    a second kind of outcome, and Python dicts are finite maps keyed by
    strings. *)

From Stdlib Require Import ZArith Lia Ascii.
From stdpp Require Import base option list strings gmap pretty.

Set Warnings "-register-all".
Open Scope Z_scope.

(** ** Python values *)

(** The values that the dicts of this program hold: [None], an [int], a
    [str], or a list of [str]. *)
Inductive pyval :=
| PyNone
| PyInt (n : Z)
| PyStr (s : string)
| PyList (items : list string).

(** Python truthiness, as used by [if x], [not x] and [x or y]. *)
Definition truthy (v : pyval) : bool :=
  match v with
  | PyNone => false
  | PyInt n => negb (Z.eqb n 0)
  | PyStr s => negb (String.eqb s "")
  | PyList items => negb (Nat.eqb (length items) 0)
  end.

(** [a or b] *)
Definition py_or (a b : pyval) : pyval := if truthy a then a else b.

(** [None] for an absent optional string. *)
Definition of_opt (o : option string) : pyval :=
  match o with
  | Some s => PyStr s
  | None => PyNone
  end.

(** ** Exceptions, events and the effect monad *)

Inductive exn :=
| HTTPError (detail : string)
| RuntimeError (msg : string)
| KeyError (key : string)
| TypeError
| ValueError
| AttributeError
| JSONDecodeError
| ParseError (detail : string)
| OSError.

Inductive level := DEBUG | INFO | WARNING | ERROR.

Record Response := { status_code : Z; content : string }.

(** What the world records of a run, in the order it happens: requests,
    log records, sleeps, and what happens to a file (a row is recorded as
    the cells handed to the csv writer, before it quotes and joins them). *)
Inductive event :=
| EvGet (url : string) (params : list (string * pyval))
| EvLog (lvl : level) (text : string)
| EvSleep (seconds : Z)
| EvOpen (filename : string)
| EvWriteRow (filename : string) (cells : list pyval)
| EvClose (filename : string).

Inductive outcome (A : Type) :=
| Return (a : A)
| Raise (e : exn).
Arguments Return {A} a.
Arguments Raise {A} e.

Definition Py (A : Type) : Type := list event -> outcome A * list event.

Definition ret {A} (a : A) : Py A := fun tr => (Return a, tr).

Definition raise {A} (e : exn) : Py A := fun tr => (Raise e, tr).

Definition bind {A B} (m : Py A) (k : A -> Py B) : Py B :=
  fun tr =>
    match m tr with
    | (Return a, tr') => k a tr'
    | (Raise e, tr') => (Raise e, tr')
    end.

Notation "x <- m ;; k" := (bind m (fun x => k))
  (at level 100, m at next level, right associativity).
Notation "m ;;; k" := (bind m (fun _ => k))
  (at level 100, right associativity).

Definition emit (ev : event) : Py unit := fun tr => (Return tt, tr ++ [ev]).

(** [try: body except <class> as e: handler]: [handler e] is [None] for an
    exception the clause does not catch. *)
Definition try_except {A} (body : Py A) (handler : exn -> option (Py A)) : Py A :=
  fun tr =>
    match body tr with
    | (Return a, tr') => (Return a, tr')
    | (Raise e, tr') =>
        match handler e with
        | Some h => h tr'
        | None => (Raise e, tr')
        end
    end.

(** A [for] loop whose body may [return]: [Some a] leaves the loop (and the
    function) with [a], [None] goes on to the next element. *)
Fixpoint for_return {I A} (body : I -> Py (option A)) (items : list I) : Py (option A) :=
  match items with
  | [] => ret None
  | i :: rest =>
      r <- body i ;;
      match r with
      | Some a => ret (Some a)
      | None => for_return body rest
      end
  end.

(** [range(n)] *)
Definition range (n : Z) : list nat := seq 0 (Z.to_nat n).

(** ** The outside world *)

Inductive get_outcome :=
| Got (r : Response)
| GetFailed (detail : string).

Inductive Element :=
| Elem (tag : string) (text : option string) (children : list Element).

Inductive parse_result :=
| Parsed (root : Element)
| ParseFailed (detail : string).

Inductive json :=
| JNull
| JBool (b : bool)
| JNum (n : Z)
| JStr (s : string)
| JArr (items : list json)
| JObj (fields : list (string * json)).

(** The collaborators the program calls and does not define: the HTTP
    transport ([http_get n url params] is the answer to the request issued
    after [n] earlier ones: a response, or a transport error, which httpx
    raises as a subclass of [httpx.HTTPError]; other exceptions of
    [httpx.get] are not modelled), the message of the status error that
    [raise_for_status] raises for a response, the XML and JSON decoders of
    the standard library ([ParseFailed] and [None] are their decode
    errors), and whether a file can be opened for writing. *)
Record Env := {
  http_get : nat -> string -> list (string * pyval) -> get_outcome;
  status_error : Response -> string;
  ET_fromstring : string -> parse_result;
  json_loads : string -> option json;
  can_open : string -> bool
}.

Definition is_get (ev : event) : bool :=
  match ev with EvGet _ _ => true | _ => false end.

Definition is_sleep (ev : event) : bool :=
  match ev with EvSleep _ => true | _ => false end.

Definition count_gets (tr : list event) : nat := length (List.filter is_get tr).

Definition count_sleeps (tr : list event) : nat := length (List.filter is_sleep tr).

Definition is_file_event (ev : event) : bool :=
  match ev with
  | EvOpen _ | EvWriteRow _ _ | EvClose _ => true
  | _ => false
  end.

(** ** Strings *)

(** A [str] is modelled by its code points below 256, one [ascii] each.
    [str.isspace] on such a code point. *)
Definition py_isspace (c : ascii) : bool :=
  match c with
  | "009" | "010" | "011" | "012" | "013"
  | "028" | "029" | "030" | "031" | " " | "133" | "160" => true
  | _ => false
  end%char.

Fixpoint lstrip (s : string) : string :=
  match s with
  | String c rest => if py_isspace c then lstrip rest else s
  | EmptyString => EmptyString
  end.

Definition rstrip (s : string) : string := String.rev (lstrip (String.rev s)).

(** [s.strip()] *)
Definition strip (s : string) : string := rstrip (lstrip s).

(** The characters of a [str], each a [str] of length one (what iterating
    over a [str] yields). *)
Fixpoint chars (s : string) : list string :=
  match s with
  | String c rest => String c EmptyString :: chars rest
  | EmptyString => []
  end.

(** [s.split(sep)] for a one-character separator. *)
Fixpoint split_on (sep : ascii) (cur : string) (s : string) : list string :=
  match s with
  | String c rest =>
      if Ascii.eqb c sep then String.rev cur :: split_on sep EmptyString rest
      else split_on sep (String c cur) rest
  | EmptyString => [String.rev cur]
  end.

(** ** Element trees and the paths of [xml.etree.ElementPath] *)

Definition tag (e : Element) : string := match e with Elem t _ _ => t end.
Definition text (e : Element) : option string := match e with Elem _ t _ => t end.
Definition children (e : Element) : list Element := match e with Elem _ _ cs => cs end.

(** The elements below [e] in document order, [e] itself left out. *)
Fixpoint descendants (e : Element) : list Element :=
  match e with
  | Elem _ _ cs =>
      (fix below (l : list Element) : list Element :=
         match l with
         | [] => []
         | c :: rest => c :: descendants c ++ below rest
         end) cs
  end.

Definition has_tag (t : string) (e : Element) : bool := String.eqb (tag e) t.

(** One step of a path: [tag] selects children, [//tag] selects
    descendants. *)
Inductive step :=
| Child (t : string)
| Descendant (t : string).

Definition select (s : step) (e : Element) : list Element :=
  match s with
  | Child t => List.filter (has_tag t) (children e)
  | Descendant t => List.filter (has_tag t) (descendants e)
  end.

(** The steps of a path written as [.//a/b] or [a]: a leading [.] is the
    context element, an empty segment comes from [//]. *)
Fixpoint steps_of (segments : list string) : list step :=
  match segments with
  | [] => []
  | seg :: rest =>
      if String.eqb seg "." then steps_of rest
      else if String.eqb seg "" then
        match rest with
        | t :: rest' => Descendant t :: steps_of rest'
        | [] => []
        end
      else Child seg :: steps_of rest
  end.

Definition parse_path (path : string) : list step :=
  steps_of (split_on "/"%char EmptyString path).

(** [elem.findall(path)] *)
Definition findall (e : Element) (path : string) : list Element :=
  fold_left (fun context s => flat_map (select s) context) (parse_path path) [e].

(** The text of the first element of a list of matches, [""] when that
    element has none. *)
Definition first_text (matches : list Element) : option string :=
  match matches with
  | first :: _ => Some (default "" (text first))
  | [] => None
  end.

(** [elem.findtext(path)]: the text of the first match, [None] without a
    match. *)
Definition findtext (e : Element) (path : string) : option string :=
  first_text (findall e path).

(** The [str] behind an optional string that is truthy (neither [None] nor
    empty). *)
Definition if_truthy (o : option string) : option string :=
  match o with
  | Some s => if String.eqb s "" then None else Some s
  | None => None
  end.

(** ** Decoded JSON *)

Definition json_truthy (v : json) : bool :=
  match v with
  | JNull => false
  | JBool b => b
  | JNum n => negb (Z.eqb n 0)
  | JStr s => negb (String.eqb s "")
  | JArr items => negb (Nat.eqb (length items) 0)
  | JObj fields => negb (Nat.eqb (length fields) 0)
  end.

Fixpoint assoc {V} (key : string) (items : list (string * V)) : option V :=
  match items with
  | [] => None
  | (k, v) :: rest => if String.eqb k key then Some v else assoc key rest
  end.

(** [d.get(key, default)]; only a dict has the method. *)
Definition json_get (d : json) (key : string) (dflt : json) : Py json :=
  match d with
  | JObj fields => ret (default dflt (assoc key fields))
  | _ => raise AttributeError
  end.

(** ** Dicts *)

(** [d[key]] *)
Definition getitem (d : gmap string pyval) (key : string) : Py pyval :=
  match d !! key with
  | Some v => ret v
  | None => raise (KeyError key)
  end.

(** [d[key].append(x)]: the list held under [key] grows in place. *)
Definition append_to (d : gmap string pyval) (key : string) (x : string)
    : Py (gmap string pyval) :=
  v <- getitem d key ;;
  match v with
  | PyList items => ret (<[key := PyList (items ++ [x])]> d)
  | _ => raise AttributeError
  end.

(** [sep.join(v)] *)
Definition str_join (sep : string) (v : pyval) : Py string :=
  match v with
  | PyList items => ret (String.concat sep items)
  | PyStr s => ret (String.concat sep (chars s))
  | _ => raise TypeError
  end.

(** A [for] loop that updates a state. *)
Fixpoint for_each {I S} (body : S -> I -> Py S) (items : list I) (s : S) : Py S :=
  match items with
  | [] => ret s
  | i :: rest => s' <- body s i ;; for_each body rest s'
  end.

(** A list comprehension [[f(x) for x in items]]. *)
Fixpoint comprehension {I A} (f : I -> Py A) (items : list I) : Py (list A) :=
  match items with
  | [] => ret []
  | i :: rest => a <- f i ;; l <- comprehension f rest ;; ret (a :: l)
  end.

(** The text the csv writer puts in a cell: the empty string for [None], a
    [str] as it is, an [int] in decimal.  (A list would be written as its
    [repr], which is outside this model; the exporter never passes one.) *)
Definition cell_text (v : pyval) : option string :=
  match v with
  | PyNone => Some ""
  | PyStr s => Some s
  | PyInt n => Some (pretty n)
  | PyList _ => None
  end.

(** ** The main program *)

(** The parsed command line: the query, the output file name, the debug
    flag and the maximum number of results. *)
Record Args := {
  arg_query : string;
  arg_file : string;
  arg_debug : bool;
  arg_max_results : Z
}.

(** What [for x in v] iterates over for a decoded JSON value: the items of
    a list, the characters of a [str], the keys of a dict; the other values
    are not iterable. *)
Definition py_iter (v : json) : Py (list json) :=
  match v with
  | JArr items => ret items
  | JStr s => ret (JStr <$> chars s)
  | JObj fields => ret (JStr <$> (fst <$> fields))
  | JNull | JBool _ | JNum _ => raise TypeError
  end.

(** The items as [str] identifiers, when each of them is a [str]. *)
Fixpoint id_strings (items : list json) : option (list string) :=
  match items with
  | [] => Some []
  | JStr s :: rest => cons s <$> id_strings rest
  | _ :: _ => None
  end.

Section Client.
Context (env : Env).

(** [httpx.get(url, params=params, timeout=10)] *)
Definition httpx_get (url : string) (params : list (string * pyval)) : Py Response :=
  fun tr =>
    match http_get env (count_gets tr) url params with
    | Got r => (Return r, tr ++ [EvGet url params])
    | GetFailed detail => (Raise (HTTPError detail), tr ++ [EvGet url params])
    end.

(** [Response.is_success]: a 2xx status. *)
Definition is_success (r : Response) : bool :=
  (200 <=? status_code r) && (status_code r <=? 299).

(** [response.raise_for_status()] *)
Definition raise_for_status (r : Response) : Py unit :=
  if is_success r then ret tt
  else raise (HTTPError (status_error env r)).

(** [time.sleep(delay)] *)
Definition time_sleep (delay : Z) : Py unit :=
  if delay <? 0 then raise ValueError else emit (EvSleep delay).

Definition logging (lvl : level) (text : string) : Py unit := emit (EvLog lvl text).

(** The body of the retry loop (lines 24 to 30): [Some response] is the
    [return] of line 27, [None] the end of the [except] clause. *)
Definition request_attempt (url : string) (params : list (string * pyval))
    (retries delay : Z) (attempt : nat) : Py (option Response) :=
  try_except
    (response <- httpx_get url params ;;
     raise_for_status response ;;;
     ret (Some response))
    (fun e =>
       match e with
       | HTTPError detail =>
           Some (logging WARNING
                   ("Request failed (attempt " +:+ pretty (Z.of_nat attempt + 1)
                    +:+ "/" +:+ pretty retries +:+ "): " +:+ detail) ;;;
                 time_sleep delay ;;;
                 ret None)
       | _ => None
       end).

(** [PubMedClient.safe_request] *)
Definition safe_request (url : string) (params : list (string * pyval))
    (retries delay : Z) : Py Response :=
  r <- for_return (request_attempt url params retries delay) (range retries) ;;
  match r with
  | Some response => ret response
  | None => raise (RuntimeError "Failed to connect to PubMed API after multiple retries.")
  end.

Definition BASE_URL : string := "https://eutils.ncbi.nlm.nih.gov/entrez/eutils".

(** [response.json()] *)
Definition response_json (r : Response) : Py json :=
  match json_loads env (content r) with
  | Some v => ret v
  | None => raise JSONDecodeError
  end.

(** [PubMedClient.search_papers] *)
Definition search_papers (query : string) (max_results : Z) : Py json :=
  if negb (truthy (PyStr (strip query))) then
    logging ERROR "Search query cannot be empty." ;;;
    ret (JArr [])
  else
    let search_url := BASE_URL +:+ "/esearch.fcgi" in
    let params := [("db", PyStr "pubmed"); ("term", PyStr query);
                   ("retmax", PyInt max_results); ("retmode", PyStr "json")] in
    response <- safe_request search_url params 3 2 ;;
    data <- response_json response ;;
    esearchresult <- json_get data "esearchresult" (JObj []) ;;
    paper_ids <- json_get esearchresult "idlist" (JArr []) ;;
    (if negb (json_truthy paper_ids)
     then logging INFO "No papers found for the given query."
     else ret tt) ;;;
    ret paper_ids.

(** [ET.fromstring(data)] *)
Definition fromstring (data : string) : Py Element :=
  match ET_fromstring env data with
  | Parsed root => ret root
  | ParseFailed detail => raise (ParseError detail)
  end.

(** The body of the loop over the author nodes (lines 88 to 100). *)
Definition author_body (paper_details : gmap string pyval) (author : Element)
    : Py (gmap string pyval) :=
  let collective_name := findtext author "CollectiveName" in
  let last_name := findtext author "LastName" in
  let fore_name := findtext author "ForeName" in
  paper_details <-
    match if_truthy collective_name with
    | Some name => append_to paper_details "authors" name
    | None =>
        match if_truthy last_name, if_truthy fore_name with
        | Some last, Some fore => append_to paper_details "authors" (fore +:+ " " +:+ last)
        | _, _ => ret paper_details
        end
    end ;;
  let affiliation := findtext author ".//AffiliationInfo/Affiliation" in
  match if_truthy affiliation with
  | Some a => append_to paper_details "affiliations" a
  | None => ret paper_details
  end.

(** The dict literal of lines 78 to 85. *)
Definition new_paper_details (paper_id : string) (root : Element) : gmap string pyval :=
  <["corresponding_email" := of_opt (findtext root ".//AffiliationInfo/Email")]>
  (<["affiliations" := PyList []]>
  (<["authors" := PyList []]>
  (<["date" := py_or (of_opt (findtext root ".//PubDate/Year"))
                     (of_opt (findtext root ".//MedlineDate"))]>
  (<["title" := of_opt (findtext root ".//ArticleTitle")]>
  (<["id" := PyStr paper_id]> ∅))))).

(** [PubMedClient.fetch_paper_details] *)
Definition fetch_paper_details (paper_id : string) : Py (gmap string pyval) :=
  let fetch_url := BASE_URL +:+ "/efetch.fcgi" in
  let params := [("db", PyStr "pubmed"); ("id", PyStr paper_id); ("retmode", PyStr "xml")] in
  response <- safe_request fetch_url params 3 2 ;;
  parsed <- try_except
              (root <- fromstring (content response) ;; ret (Some root))
              (fun e =>
                 match e with
                 | ParseError detail =>
                     Some (logging ERROR ("Error parsing XML for paper " +:+ paper_id
                                          +:+ ": " +:+ detail) ;;;
                           ret None)
                 | _ => None
                 end) ;;
  match parsed with
  | None => ret ∅
  | Some root =>
      for_each author_body (findall root ".//Author") (new_paper_details paper_id root)
  end.

Definition headers : list string :=
  ["id"; "title"; "date"; "authors"; "affiliations"; "corresponding_email"].

(** [with open(filename, mode="w", ...) as file: body]: the file is closed
    however the body ends. *)
Definition with_open {A} (filename : string) (body : Py A) : Py A :=
  if can_open env filename then
    fun tr =>
      let '(r, tr') := body (tr ++ [EvOpen filename]) in
      (r, tr' ++ [EvClose filename])
  else raise OSError.

(** [csv.DictWriter.writerow(rowdict)], the row dict given by its items: a
    key outside the field names is refused, a field name without a value is
    written as the empty string. *)
Definition writerow (filename : string) (fieldnames : list string)
    (rowdict : list (string * pyval)) : Py unit :=
  if forallb (fun kv => existsb (String.eqb kv.1) fieldnames) rowdict then
    emit (EvWriteRow filename
            (List.map (fun k => default (PyStr "") (assoc k rowdict)) fieldnames))
  else raise ValueError.

(** [csv.DictWriter.writeheader()] *)
Definition writeheader (filename : string) (fieldnames : list string) : Py unit :=
  writerow filename fieldnames (List.map (fun k => (k, PyStr k)) fieldnames).

(** The body of the loop over the papers (lines 120 to 127). *)
Definition paper_row (filename : string) (paper : gmap string pyval) : Py unit :=
  id <- getitem paper "id" ;;
  title <- getitem paper "title" ;;
  date <- getitem paper "date" ;;
  authors <- getitem paper "authors" ;;
  authors <- str_join "; " authors ;;
  affiliations <- getitem paper "affiliations" ;;
  affiliations <- str_join "; " affiliations ;;
  corresponding_email <- getitem paper "corresponding_email" ;;
  writerow filename headers
    [("id", id); ("title", title); ("date", date);
     ("authors", PyStr authors); ("affiliations", PyStr affiliations);
     ("corresponding_email", py_or corresponding_email (PyStr "N/A"))].

(** [save_to_csv] *)
Definition save_to_csv (papers : list (gmap string pyval)) (filename : string) : Py unit :=
  if Nat.eqb (length papers) 0 then
    logging WARNING "No paper details to save."
  else
    with_open filename
      (writeheader filename headers ;;;
       for_each (fun _ paper => paper_row filename paper) papers tt) ;;;
    logging INFO ("Results saved to " +:+ filename +:+ ".").

(** Steps 2 and 3 of the main program (lines 168 to 172): fetch the details
    of every identifier, then export them. *)
Definition fetch_and_save (paper_ids : list string) (file : string) : Py unit :=
  papers <- comprehension fetch_paper_details paper_ids ;;
  save_to_csv papers file.

(** The main program (lines 151 to 172) after the command line is parsed.
    The debug flag lowers the threshold of the root logger, under which
    every record of this program passes either way.  [exit()] ends the
    program, here the end of the computation.  The detail fetch is modelled
    for [str] identifiers, which is what the search endpoint sends: [None]
    stands for a run whose identifier list holds something else. *)
Definition main (args : Args) : Py (option unit) :=
  paper_ids <- search_papers (arg_query args) (arg_max_results args) ;;
  if negb (json_truthy paper_ids) then
    logging INFO "No papers found. Exiting..." ;;;
    ret (Some tt)
  else
    items <- py_iter paper_ids ;;
    match id_strings items with
    | Some ids => fetch_and_save ids (arg_file args) ;;; ret (Some tt)
    | None => ret None
    end.

End Client.

(** ** Specification vocabulary *)

(** The paper record of the data model: every field typed, optional ones
    absent as [None]. *)
Record PaperRecord := {
  rec_id : string;
  rec_title : option string;
  rec_date : option string;
  rec_authors : list string;
  rec_affiliations : list string;
  rec_email : option string
}.

(** The dict that holds a paper record, with the keys of
    [fetch_paper_details]. *)
Definition to_dict (p : PaperRecord) : gmap string pyval :=
  <["corresponding_email" := of_opt (rec_email p)]>
  (<["affiliations" := PyList (rec_affiliations p)]>
  (<["authors" := PyList (rec_authors p)]>
  (<["date" := of_opt (rec_date p)]>
  (<["title" := of_opt (rec_title p)]>
  (<["id" := PyStr (rec_id p)]> ∅))))).

(** The cells of the data row that the exporter writes for a record. *)
Definition row_cells (p : PaperRecord) : list pyval :=
  [PyStr (rec_id p); of_opt (rec_title p); of_opt (rec_date p);
   PyStr (String.concat "; " (rec_authors p));
   PyStr (String.concat "; " (rec_affiliations p));
   py_or (of_opt (rec_email p)) (PyStr "N/A")].

(** A record with [authors] and [affiliations] appended to its two lists. *)
Definition extend (p : PaperRecord) (authors affiliations : list string) : PaperRecord := {|
  rec_id := rec_id p;
  rec_title := rec_title p;
  rec_date := rec_date p;
  rec_authors := rec_authors p ++ authors;
  rec_affiliations := rec_affiliations p ++ affiliations;
  rec_email := rec_email p
|}.

(** What one author node adds to the authors list: its collective name
    when that is neither absent nor empty, else fore name, a space and last
    name when both are neither absent nor empty, else nothing. *)
Definition author_name (author : Element) : list string :=
  match if_truthy (findtext author "CollectiveName") with
  | Some name => [name]
  | None =>
      match if_truthy (findtext author "LastName"),
            if_truthy (findtext author "ForeName") with
      | Some last, Some fore => [fore +:+ " " +:+ last]
      | _, _ => []
      end
  end.

(** What one author node adds to the affiliations list. *)
Definition author_affiliation (author : Element) : list string :=
  match if_truthy (findtext author ".//AffiliationInfo/Affiliation") with
  | Some a => [a]
  | None => []
  end.

(** The record that [fetch_paper_details] extracts from a parsed
    document. *)
Definition extracted (paper_id : string) (root : Element) : PaperRecord := {|
  rec_id := paper_id;
  rec_title := findtext root ".//ArticleTitle";
  rec_date :=
    match if_truthy (findtext root ".//PubDate/Year") with
    | Some year => Some year
    | None => findtext root ".//MedlineDate"
    end;
  rec_authors := flat_map author_name (findall root ".//Author");
  rec_affiliations := flat_map author_affiliation (findall root ".//Author");
  rec_email := findtext root ".//AffiliationInfo/Email"
|}.

(** The authors rule in the words of the specification: a collective name
    that is present is taken, else fore name and last name when both are
    present, else nothing. *)
Definition spec_author_name (author : Element) : list string :=
  match findtext author "CollectiveName" with
  | Some name => [name]
  | None =>
      match findtext author "ForeName", findtext author "LastName" with
      | Some fore, Some last => [fore +:+ " " +:+ last]
      | _, _ => []
      end
  end.

(** The date rule in the words of the specification: the first publication
    year, the Medline date when the year is absent. *)
Definition spec_date (root : Element) : option string :=
  match findtext root ".//PubDate/Year" with
  | Some year => Some year
  | None => findtext root ".//MedlineDate"
  end.

(** The value under [key] of the dict that a call returned. *)
Definition returned_field (r : outcome (gmap string pyval) * list event) (key : string)
    : option pyval :=
  match r.1 with
  | Return d => d !! key
  | Raise _ => None
  end.

(** How the [n]-th request of the run ends for the executor: the response
    when it has a success status, otherwise the text of the
    [httpx.HTTPError] that the attempt raises (a transport error, or the
    status error of [raise_for_status]). *)
Definition attempt_result (env : Env) (n : nat) (url : string)
    (params : list (string * pyval)) : Response + string :=
  match http_get env n url params with
  | Got r => if is_success r then inl r else inr (status_error env r)
  | GetFailed detail => inr detail
  end.

Definition attempt_fails (env : Env) (n : nat) (url : string)
    (params : list (string * pyval)) : Prop :=
  exists detail, attempt_result env n url params = inr detail.


(** The header as the specification names it. *)
Definition spec_headers : list string :=
  ["identifier"; "title"; "date"; "authors"; "affiliations"; "corresponding_email"].

(** A [str] made of whitespace only (the empty one included). *)
Fixpoint whitespace_only (s : string) : bool :=
  match s with
  | String c rest => py_isspace c && whitespace_only rest
  | EmptyString => true
  end.



(** A computation that only appends events, each of them accepted by
    [allowed], whatever the trace it starts from and however it ends. *)
Definition only {A} (allowed : event -> bool) (m : Py A) : Prop :=
  forall tr, exists added, snd (m tr) = tr ++ added /\ forallb allowed added = true.

(** The events that do not touch a file. *)
Definition no_file (ev : event) : bool := negb (is_file_event ev).

(** The events that [save_to_csv] may leave when it writes to [filename]:
    log records, and opening, closing and six-cell rows of that file. *)
Definition export_event (filename : string) (ev : event) : bool :=
  match ev with
  | EvLog _ _ => true
  | EvOpen f | EvClose f => String.eqb f filename
  | EvWriteRow f cells => String.eqb f filename && Nat.eqb (length cells) 6
  | EvGet _ _ | EvSleep _ => false
  end.




(** ** Sample worlds *)

(** A world whose transport times out on every request. *)
Definition env_down : Env := {|
  http_get := fun _ _ _ => GetFailed "timed out";
  status_error := fun r => "Server error for url";
  ET_fromstring := fun _ => ParseFailed "no element found";
  json_loads := fun _ => None;
  can_open := fun _ => true
|}.

(** A world whose transport times out once, answers 503 once, and then
    answers 200 with an empty JSON object. *)
Definition env_flaky : Env := {|
  http_get := fun n _ _ =>
    match n with
    | O => GetFailed "timed out"
    | S O => Got {| status_code := 503; content := "busy" |}
    | _ => Got {| status_code := 200; content := "{}" |}
    end;
  status_error := fun r => "Server error for url";
  ET_fromstring := fun _ => ParseFailed "syntax error";
  json_loads := fun _ => Some (JObj []);
  can_open := fun _ => true
|}.

(** Two records: one with two authors and no email, one with an email and
    neither authors nor title nor date. *)
Definition paper_jane : PaperRecord := {|
  rec_id := "31452104";
  rec_title := Some "Screening outcomes";
  rec_date := Some "2019";
  rec_authors := ["Jane Doe"; "WHO Group"];
  rec_affiliations := ["Dept. of Oncology"];
  rec_email := None
|}.

Definition paper_bare : PaperRecord := {|
  rec_id := "29860986";
  rec_title := None;
  rec_date := None;
  rec_authors := [];
  rec_affiliations := [];
  rec_email := Some "x@y.org"
|}.

(** An author with an empty collective name beside a fore name and a last
    name, and a publication date whose year is empty beside a Medline
    date. *)
Definition doc_empty_fields : Element :=
  Elem "PubmedArticleSet" None
    [Elem "PubmedArticle" None
       [Elem "Article" None
          [Elem "Journal" None
             [Elem "PubDate" None [Elem "Year" None []];
              Elem "MedlineDate" (Some "2020 Spring") []];
           Elem "ArticleTitle" (Some "Screening outcomes") [];
           Elem "AuthorList" None
             [Elem "Author" None
                [Elem "CollectiveName" None [];
                 Elem "ForeName" (Some "Jane") [];
                 Elem "LastName" (Some "Doe") []]]]]].

(** A document with a collective author, a personal author with an
    affiliation and an email, and an author with a last name only. *)
Definition doc_three_authors : Element :=
  Elem "PubmedArticleSet" None
    [Elem "PubmedArticle" None
       [Elem "Article" None
          [Elem "Journal" None [Elem "PubDate" None [Elem "Year" (Some "2019") []]];
           Elem "ArticleTitle" (Some "Screening outcomes") [];
           Elem "AuthorList" None
             [Elem "Author" None [Elem "CollectiveName" (Some "WHO Group") []];
              Elem "Author" None
                [Elem "LastName" (Some "Doe") [];
                 Elem "ForeName" (Some "Jane") [];
                 Elem "AffiliationInfo" None
                   [Elem "Affiliation" (Some "Dept. of Oncology") [];
                    Elem "Email" (Some "jane@example.org") []]];
              Elem "Author" None [Elem "LastName" (Some "Solo") []]]]]].

(** A world whose fetch endpoint always answers with a body that parses to
    [root]. *)
Definition env_serving (root : Element) : Env := {|
  http_get := fun _ _ _ => Got {| status_code := 200; content := "<PubmedArticleSet/>" |};
  status_error := fun r => "Server error for url";
  ET_fromstring := fun _ => Parsed root;
  json_loads := fun _ => None;
  can_open := fun _ => true
|}.

(** A world whose second answer is not well-formed XML. *)
Definition env_second_malformed : Env := {|
  http_get := fun n _ _ =>
    Got {| status_code := 200;
           content := if Nat.eqb n 1 then "<html>" else "<PubmedArticleSet/>" |};
  status_error := fun r => "Server error for url";
  ET_fromstring := fun body =>
    if String.eqb body "<html>" then ParseFailed "mismatched tag"
    else Parsed doc_three_authors;
  json_loads := fun _ => None;
  can_open := fun _ => true
|}.

(** A world whose search endpoint answers with [payload]. *)
Definition env_search (payload : json) : Env := {|
  http_get := fun _ _ _ => Got {| status_code := 200; content := "payload" |};
  status_error := fun r => "Server error for url";
  ET_fromstring := fun _ => ParseFailed "syntax error";
  json_loads := fun _ => Some payload;
  can_open := fun _ => true
|}.

(** A world whose search endpoint answers with two identifiers. *)
Definition env_two_ids : Env := {|
  http_get := fun _ _ _ => Got {| status_code := 200; content := "payload" |};
  status_error := fun r => "Server error for url";
  ET_fromstring := fun _ => ParseFailed "syntax error";
  json_loads := fun _ =>
    Some (JObj [("esearchresult", JObj [("count", JStr "2");
                                        ("idlist", JArr [JStr "31452104"; JStr "29860986"])])]);
  can_open := fun _ => true
|}.


(** A world whose transport answers the first request and is down from
    then on. *)
Definition env_second_down : Env := {|
  http_get := fun n _ _ =>
    match n with
    | O => Got {| status_code := 200; content := "<PubmedArticleSet/>" |}
    | S _ => GetFailed "timed out"
    end;
  status_error := fun r => "Server error for url";
  ET_fromstring := fun _ => Parsed doc_three_authors;
  json_loads := fun _ => None;
  can_open := fun _ => true
|}.

(** ** Facts about the effect monad *)

Lemma bind_Return {A B} (m : Py A) (k : A -> Py B) tr a tr' :
  m tr = (Return a, tr') -> bind m k tr = k a tr'.
Proof. intros H. unfold bind. by rewrite H. Qed.

Lemma bind_Raise {A B} (m : Py A) (k : A -> Py B) tr e tr' :
  m tr = (Raise e, tr') -> bind m k tr = (Raise e, tr').
Proof. intros H. unfold bind. by rewrite H. Qed.

Lemma count_gets_app tr evs :
  count_gets (tr ++ evs) = (count_gets tr + count_gets evs)%nat.
Proof. unfold count_gets. by rewrite List.filter_app, length_app. Qed.

Lemma count_sleeps_app tr evs :
  count_sleeps (tr ++ evs) = (count_sleeps tr + count_sleeps evs)%nat.
Proof. unfold count_sleeps. by rewrite List.filter_app, length_app. Qed.

(** ** The retrying executor *)

Section Executor.
Context (env : Env) (url : string) (params : list (string * pyval)).
Context (retries delay : Z).

Lemma request_attempt_success attempt tr r :
  attempt_result env (count_gets tr) url params = inl r ->
  request_attempt env url params retries delay attempt tr
  = (Return (Some r), tr ++ [EvGet url params]).
Proof.
  unfold attempt_result, request_attempt, try_except, bind, httpx_get, raise_for_status.
  destruct (http_get env (count_gets tr) url params) as [r'|d]; [|done].
  destruct (is_success r') eqn:Hs; [|done].
  by intros [= ->].
Qed.

Lemma request_attempt_failure attempt tr detail :
  0 <= delay ->
  attempt_result env (count_gets tr) url params = inr detail ->
  request_attempt env url params retries delay attempt tr
  = (Return None,
     tr ++ [EvGet url params;
            EvLog WARNING ("Request failed (attempt " +:+ pretty (Z.of_nat attempt + 1)
                           +:+ "/" +:+ pretty retries +:+ "): " +:+ detail);
            EvSleep delay]).
Proof.
  intros Hd.
  unfold attempt_result, request_attempt, try_except, bind, httpx_get, raise_for_status,
    logging, time_sleep, emit, ret, raise.
  assert ((delay <? 0) = false) as Hlt by lia.
  destruct (http_get env (count_gets tr) url params) as [r'|d].
  - destruct (is_success r') eqn:Hs; [done|].
    intros [= <-]. rewrite Hlt. by rewrite <- !app_assoc.
  - intros [= <-]. rewrite Hlt. by rewrite <- !app_assoc.
Qed.

(** Attempts that all fail: the loop runs to its end, with one request and
    one sleep per attempt. *)
Lemma retry_loop_all_fail n a tr :
  0 <= delay ->
  (forall j, (j < n)%nat -> attempt_fails env (count_gets tr + j) url params) ->
  exists tr',
    for_return (request_attempt env url params retries delay) (seq a n) tr
    = (Return None, tr')
    /\ count_gets tr' = (count_gets tr + n)%nat
    /\ count_sleeps tr' = (count_sleeps tr + n)%nat.
Proof.
  intros Hd. revert a tr. induction n as [|n IH]; intros a tr Hall.
  - exists tr. simpl. unfold ret. by rewrite !Nat.add_0_r.
  - destruct (Hall 0%nat ltac:(lia)) as [detail Hdet].
    rewrite Nat.add_0_r in Hdet.
    pose proof (request_attempt_failure a tr detail Hd Hdet) as Hstep.
    simpl. rewrite (bind_Return _ _ _ _ _ Hstep).
    match type of Hstep with _ = (_, ?t) => set (tr1 := t) in * end.
    assert (count_gets tr1 = S (count_gets tr)) as Hg.
    { subst tr1. rewrite count_gets_app. cbn. lia. }
    assert (count_sleeps tr1 = S (count_sleeps tr)) as Hs.
    { subst tr1. rewrite count_sleeps_app. cbn. lia. }
    destruct (IH (S a) tr1) as (tr' & Hrun & Hg' & Hs').
    { intros j Hj. rewrite Hg. replace (S (count_gets tr) + j)%nat
        with (count_gets tr + S j)%nat by lia. apply Hall. lia. }
    exists tr'. split; [done|]. lia.
Qed.

(** [k] failing attempts followed by a successful one: the loop leaves with
    that response after [k + 1] requests and [k] sleeps. *)
Lemma retry_loop_first_success k n a tr r :
  0 <= delay ->
  (k < n)%nat ->
  (forall j, (j < k)%nat -> attempt_fails env (count_gets tr + j) url params) ->
  attempt_result env (count_gets tr + k) url params = inl r ->
  exists tr',
    for_return (request_attempt env url params retries delay) (seq a n) tr
    = (Return (Some r), tr')
    /\ count_gets tr' = (count_gets tr + k + 1)%nat
    /\ count_sleeps tr' = (count_sleeps tr + k)%nat.
Proof.
  intros Hd. revert n a tr. induction k as [|k IH]; intros n a tr Hkn Hfail Hok.
  - destruct n as [|n]; [lia|]. rewrite Nat.add_0_r in Hok.
    pose proof (request_attempt_success a tr r Hok) as Hstep.
    simpl. rewrite (bind_Return _ _ _ _ _ Hstep). unfold ret.
    eexists. split; [done|].
    rewrite count_gets_app, count_sleeps_app. cbn. lia.
  - destruct n as [|n]; [lia|].
    destruct (Hfail 0%nat ltac:(lia)) as [detail Hdet].
    rewrite Nat.add_0_r in Hdet.
    pose proof (request_attempt_failure a tr detail Hd Hdet) as Hstep.
    simpl. rewrite (bind_Return _ _ _ _ _ Hstep).
    match type of Hstep with _ = (_, ?t) => set (tr1 := t) in * end.
    assert (count_gets tr1 = S (count_gets tr)) as Hg.
    { subst tr1. rewrite count_gets_app. cbn. lia. }
    assert (count_sleeps tr1 = S (count_sleeps tr)) as Hs.
    { subst tr1. rewrite count_sleeps_app. cbn. lia. }
    destruct (IH n (S a) tr1) as (tr' & Hrun & Hg' & Hs').
    { lia. }
    { intros j Hj. rewrite Hg. replace (S (count_gets tr) + j)%nat
        with (count_gets tr + S j)%nat by lia. apply Hfail. lia. }
    { rewrite Hg. replace (S (count_gets tr) + k)%nat
        with (count_gets tr + S k)%nat by lia. done. }
    exists tr'. split; [done|]. lia.
Qed.

End Executor.

Lemma attempt_fails_iff env n url params :
  attempt_fails env n url params <->
  (exists detail, http_get env n url params = GetFailed detail)
  \/ (exists r, http_get env n url params = Got r /\ is_success r = false).
Proof.
  unfold attempt_fails, attempt_result.
  destruct (http_get env n url params) as [r|d].
  - destruct (is_success r) eqn:Hs; split.
    + intros [? [=]].
    + intros [[? [=]]|[r' [[= <-] Hr']]]. congruence.
    + intros _. right. by exists r.
    + intros _. by eexists.
  - split; intros _; [left|]; by eexists.
Qed.

Lemma attempt_result_success env n url params r :
  http_get env n url params = Got r -> is_success r = true ->
  attempt_result env n url params = inl r.
Proof. unfold attempt_result. by intros -> ->. Qed.

(** C1 (as the code behaves).  When the transport fails [k] times and then
    succeeds, with [k] below [retries], [safe_request] issues [k + 1]
    requests, sleeps [k] times and returns the successful response.  When
    every one of the [retries] attempts fails, it raises [RuntimeError]
    after [retries] requests and [retries] sleeps: the executor also sleeps
    after the final failed attempt, one sleep more than the
    [retries - 1] that the specification and the docstring ("time between
    retries") call for. *)
Theorem safe_request_requests_and_sleeps env url params retries delay tr :
  0 <= delay ->
  (forall k r,
     (k < Z.to_nat retries)%nat ->
     (forall j, (j < k)%nat -> attempt_fails env (count_gets tr + j) url params) ->
     attempt_result env (count_gets tr + k) url params = inl r ->
     exists tr',
       safe_request env url params retries delay tr = (Return r, tr')
       /\ count_gets tr' = (count_gets tr + k + 1)%nat
       /\ count_sleeps tr' = (count_sleeps tr + k)%nat)
  /\ ((forall j, (j < Z.to_nat retries)%nat ->
         attempt_fails env (count_gets tr + j) url params) ->
      exists tr',
        safe_request env url params retries delay tr
        = (Raise (RuntimeError "Failed to connect to PubMed API after multiple retries."), tr')
        /\ count_gets tr' = (count_gets tr + Z.to_nat retries)%nat
        /\ count_sleeps tr' = (count_sleeps tr + Z.to_nat retries)%nat).
Proof.
  intros Hd. split.
  - intros k r Hk Hfail Hok.
    destruct (retry_loop_first_success env url params retries delay
                k (Z.to_nat retries) 0%nat tr r Hd Hk Hfail Hok)
      as (tr' & Hrun & Hg & Hs).
    exists tr'. split; [|done].
    unfold safe_request, range. by rewrite (bind_Return _ _ _ _ _ Hrun).
  - intros Hall.
    destruct (retry_loop_all_fail env url params retries delay
                (Z.to_nat retries) 0%nat tr Hd Hall)
      as (tr' & Hrun & Hg & Hs).
    exists tr'. split; [|done].
    unfold safe_request, range. by rewrite (bind_Return _ _ _ _ _ Hrun).
Qed.

(** With the default three attempts: against a transport that is down the
    executor sleeps three times, not two; against one that fails twice and
    then answers, it issues three requests and sleeps twice. *)
Lemma safe_request_requests_and_sleeps_witness :
  (exists tr',
     safe_request env_down "u" [] 3 2 []
     = (Raise (RuntimeError "Failed to connect to PubMed API after multiple retries."), tr')
     /\ count_gets tr' = 3%nat
     /\ count_sleeps tr' = 3%nat)
  /\ (exists tr',
        safe_request env_flaky "u" [] 3 2 []
        = (Return {| status_code := 200; content := "{}" |}, tr')
        /\ count_gets tr' = 3%nat
        /\ count_sleeps tr' = 2%nat).
Proof.
  split.
  - apply (safe_request_requests_and_sleeps env_down "u" [] 3 2 []); [lia|].
    intros j _. by exists "timed out".
  - apply (proj1 (safe_request_requests_and_sleeps env_flaky "u" [] 3 2 [] ltac:(lia))
             2%nat); [simpl; lia| |reflexivity].
    intros j Hj. destruct j as [|[|j]]; [| |lia].
    + by exists "timed out".
    + by exists "Server error for url".
Defined.

(** C2.  If every one of the [retries] attempts fails, by a transport error
    or by a status that is not a success, [safe_request] raises
    [RuntimeError] and returns nothing; if an attempt succeeds after failed
    ones, that attempt's response is returned and nothing is raised. *)
Theorem safe_request_raises_iff_exhausted env url params retries delay tr :
  0 <= delay ->
  ((forall j, (j < Z.to_nat retries)%nat ->
      (exists detail, http_get env (count_gets tr + j) url params = GetFailed detail)
      \/ (exists r, http_get env (count_gets tr + j) url params = Got r
                    /\ is_success r = false)) ->
   fst (safe_request env url params retries delay tr)
   = Raise (RuntimeError "Failed to connect to PubMed API after multiple retries."))
  /\ (forall k r,
        (k < Z.to_nat retries)%nat ->
        (forall j, (j < k)%nat ->
           (exists detail, http_get env (count_gets tr + j) url params = GetFailed detail)
           \/ (exists r', http_get env (count_gets tr + j) url params = Got r'
                          /\ is_success r' = false)) ->
        http_get env (count_gets tr + k) url params = Got r ->
        is_success r = true ->
        fst (safe_request env url params retries delay tr) = Return r).
Proof.
  intros Hd. split.
  - intros Hall.
    destruct (retry_loop_all_fail env url params retries delay
                (Z.to_nat retries) 0%nat tr Hd) as (tr' & Hrun & _).
    { intros j Hj. apply attempt_fails_iff. by apply Hall. }
    unfold safe_request, range. by rewrite (bind_Return _ _ _ _ _ Hrun).
  - intros k r Hk Hfail Hget Hok.
    destruct (retry_loop_first_success env url params retries delay
                k (Z.to_nat retries) 0%nat tr r Hd Hk) as (tr' & Hrun & _).
    { intros j Hj. apply attempt_fails_iff. by apply Hfail. }
    { by apply attempt_result_success. }
    unfold safe_request, range. by rewrite (bind_Return _ _ _ _ _ Hrun).
Qed.

Lemma safe_request_raises_iff_exhausted_witness :
  fst (safe_request env_down "u" [] 3 2 [])
  = Raise (RuntimeError "Failed to connect to PubMed API after multiple retries.")
  /\ fst (safe_request env_flaky "u" [] 3 2 [])
     = Return {| status_code := 200; content := "{}" |}.
Proof.
  split.
  - apply (safe_request_raises_iff_exhausted env_down "u" [] 3 2 []); [lia|].
    intros j _. left. by exists "timed out".
  - apply (proj2 (safe_request_raises_iff_exhausted env_flaky "u" [] 3 2 [] ltac:(lia))
             2%nat);
      [simpl; lia| |reflexivity|reflexivity].
    intros j Hj. destruct j as [|[|j]]; [left|right|lia].
    + by exists "timed out".
    + by exists {| status_code := 503; content := "busy" |}.
Defined.

(** ** The search operation *)

Lemma lstrip_whitespace_only s : whitespace_only s = true -> lstrip s = "".
Proof.
  induction s as [|c s IH]; simpl; [done|].
  intros [Hc Hs]%andb_prop. rewrite Hc. auto.
Qed.

Lemma strip_whitespace_only s : whitespace_only s = true -> strip s = "".
Proof. intros H. unfold strip. by rewrite (lstrip_whitespace_only s H). Qed.

(** C7.  A query that is empty after trimming (every whitespace-only query
    is) makes [search_papers] log an error and return the empty list: no
    request is issued and nothing is raised. *)
Theorem search_papers_blank_query env query max_results tr :
  strip query = "" \/ whitespace_only query = true ->
  search_papers env query max_results tr
  = (Return (JArr []), tr ++ [EvLog ERROR "Search query cannot be empty."])
  /\ count_gets (snd (search_papers env query max_results tr)) = count_gets tr.
Proof.
  intros H.
  assert (strip query = "") as Hs.
  { destruct H as [H|H]; [done|by apply strip_whitespace_only]. }
  assert (search_papers env query max_results tr
          = (Return (JArr []), tr ++ [EvLog ERROR "Search query cannot be empty."])) as Hrun.
  { unfold search_papers. rewrite Hs. reflexivity. }
  split; [done|].
  rewrite Hrun. simpl. rewrite count_gets_app. cbn. lia.
Qed.

Lemma search_papers_blank_query_witness :
  search_papers env_two_ids "   " 10 []
  = (Return (JArr []), [] ++ [EvLog ERROR "Search query cannot be empty."])
  /\ count_gets (snd (search_papers env_two_ids "   " 10 [])) = count_gets [].
Proof.
  apply (search_papers_blank_query env_two_ids "   " 10 []).
  right. reflexivity.
Defined.



(** ** The exporter *)

Section Exporter.
Context (env : Env) (filename : string).

Lemma paper_row_to_dict p tr :
  paper_row filename (to_dict p) tr = (Return tt, tr ++ [EvWriteRow filename (row_cells p)]).
Proof. destruct p. reflexivity. Qed.

Lemma paper_row_empty tr :
  paper_row filename ∅ tr = (Raise (KeyError "id"), tr).
Proof. reflexivity. Qed.

Lemma rows_loop ps tr :
  for_each (fun _ paper => paper_row filename paper) (to_dict <$> ps) tt tr
  = (Return tt, tr ++ ((fun p => EvWriteRow filename (row_cells p)) <$> ps)).
Proof.
  revert tr. induction ps as [|p ps IH]; intros tr; simpl.
  - unfold ret. by rewrite app_nil_r.
  - rewrite (bind_Return _ _ _ _ _ (paper_row_to_dict p tr)).
    rewrite IH. by rewrite <- app_assoc.
Qed.

Lemma rows_loop_empty_record before after tr :
  for_each (fun _ paper => paper_row filename paper)
    ((to_dict <$> before) ++ ∅ :: after) tt tr
  = (Raise (KeyError "id"), tr ++ ((fun p => EvWriteRow filename (row_cells p)) <$> before)).
Proof.
  revert tr. induction before as [|p ps IH]; intros tr; simpl.
  - rewrite (bind_Raise _ _ _ _ _ (paper_row_empty tr)). by rewrite app_nil_r.
  - rewrite (bind_Return _ _ _ _ _ (paper_row_to_dict p tr)).
    rewrite IH. by rewrite <- app_assoc.
Qed.

(** The export of a list that is not empty, run up to the end of the
    [with] block. *)
Lemma save_to_csv_unfold papers tr :
  papers <> [] ->
  can_open env filename = true ->
  save_to_csv env papers filename tr
  = (let '(r, tr') :=
       for_each (fun _ paper => paper_row filename paper) papers tt
         (tr ++ [EvOpen filename; EvWriteRow filename (PyStr <$> headers)]) in
     match r with
     | Return _ =>
         (Return tt, tr' ++ [EvClose filename;
                             EvLog INFO ("Results saved to " +:+ filename +:+ ".")])
     | Raise e => (Raise e, tr' ++ [EvClose filename])
     end).
Proof.
  intros Hne Hopen. unfold save_to_csv.
  destruct papers as [|p ps]; [done|]. cbn [length Nat.eqb].
  unfold with_open, bind at 1. rewrite Hopen.
  unfold bind at 1.
  change (writeheader filename headers (tr ++ [EvOpen filename]))
    with (Return tt, (tr ++ [EvOpen filename]) ++ [EvWriteRow filename (PyStr <$> headers)]).
  rewrite <- app_assoc. cbn [app].
  destruct (for_each _ (p :: ps) tt _) as [[[]|e] tr']; [|done].
  unfold logging, emit. by rewrite <- app_assoc.
Qed.

End Exporter.

(** C10.  For the empty list of records [save_to_csv] logs a warning and
    returns: the file is neither opened nor written, and nothing is
    raised. *)
Theorem save_to_csv_no_records env filename tr :
  save_to_csv env [] filename tr
  = (Return tt, tr ++ [EvLog WARNING "No paper details to save."])
  /\ List.filter is_file_event (snd (save_to_csv env [] filename tr))
     = List.filter is_file_event tr.
Proof.
  assert (save_to_csv env [] filename tr
          = (Return tt, tr ++ [EvLog WARNING "No paper details to save."])) as Hrun
    by reflexivity.
  split; [exact Hrun|].
  rewrite Hrun. cbn [snd]. rewrite List.filter_app. cbn. apply app_nil_r.
Qed.

(** C3 (amended).  For a list of records that is not empty and a file that
    can be opened, [save_to_csv] writes the header id, title, date,
    authors, affiliations, corresponding_email, then one row per record in
    input order: authors and affiliations joined with ["; "], an absent or
    empty email written as ["N/A"], an absent title or date handed to the
    writer as [None], which it writes as the empty cell. *)
Theorem save_to_csv_header_and_rows env records filename tr :
  records <> [] ->
  can_open env filename = true ->
  save_to_csv env (to_dict <$> records) filename tr
  = (Return tt,
     tr ++ [EvOpen filename;
            EvWriteRow filename
              [PyStr "id"; PyStr "title"; PyStr "date"; PyStr "authors";
               PyStr "affiliations"; PyStr "corresponding_email"]]
        ++ ((fun p =>
               EvWriteRow filename
                 [PyStr (rec_id p);
                  of_opt (rec_title p);
                  of_opt (rec_date p);
                  PyStr (String.concat "; " (rec_authors p));
                  PyStr (String.concat "; " (rec_affiliations p));
                  match rec_email p with
                  | None => PyStr "N/A"
                  | Some e => if String.eqb e "" then PyStr "N/A" else PyStr e
                  end]) <$> records)
        ++ [EvClose filename; EvLog INFO ("Results saved to " +:+ filename +:+ ".")])
  /\ cell_text (of_opt None) = Some "".
Proof.
  intros Hne Hopen. split; [|reflexivity].
  rewrite save_to_csv_unfold; [|by destruct records|done].
  rewrite rows_loop. rewrite <- !app_assoc. cbn [app].
  match goal with
  | |- (_, _ ++ _ :: _ :: (?f <$> _) ++ _) = (_, _ ++ _ :: _ :: (?g <$> _) ++ _) =>
      assert (f <$> records = g <$> records) as ->; [|done]
  end.
  apply list_fmap_ext. intros i p _. f_equal.
  unfold row_cells, py_or. destruct (rec_email p) as [e|]; [|done].
  simpl. by destruct (String.eqb e "").
Qed.

Lemma save_to_csv_header_and_rows_witness :
  save_to_csv env_two_ids (to_dict <$> [paper_jane; paper_bare]) "output.csv" []
  = (Return tt,
     [EvOpen "output.csv";
      EvWriteRow "output.csv"
        [PyStr "id"; PyStr "title"; PyStr "date"; PyStr "authors";
         PyStr "affiliations"; PyStr "corresponding_email"];
      EvWriteRow "output.csv"
        [PyStr "31452104"; PyStr "Screening outcomes"; PyStr "2019";
         PyStr "Jane Doe; WHO Group"; PyStr "Dept. of Oncology"; PyStr "N/A"];
      EvWriteRow "output.csv"
        [PyStr "29860986"; PyNone; PyNone; PyStr ""; PyStr ""; PyStr "x@y.org"];
      EvClose "output.csv";
      EvLog INFO "Results saved to output.csv."])
  /\ cell_text (of_opt None) = Some "".
Proof.
  apply (save_to_csv_header_and_rows env_two_ids [paper_jane; paper_bare] "output.csv" []);
    [discriminate|reflexivity].
Defined.

(** The header row that the exporter writes starts with [id], where the
    specification has [identifier]. *)
Lemma save_to_csv_header_not_identifier :
  snd (save_to_csv env_two_ids [to_dict paper_jane] "output.csv" []) !! 1%nat
  = Some (EvWriteRow "output.csv" (PyStr <$> headers))
  /\ headers !! 0%nat = Some "id"
  /\ spec_headers !! 0%nat = Some "identifier"
  /\ headers <> spec_headers.
Proof. repeat split. discriminate. Qed.

(** C4.  When the list holds the empty record (what [fetch_paper_details]
    returns for a response it cannot parse), [save_to_csv] raises
    [KeyError] for the key [id] at that record, after the header and the
    rows of the records before it were written; the records after it are
    never reached. *)
Theorem save_to_csv_empty_record_raises env before after filename tr :
  can_open env filename = true ->
  save_to_csv env ((to_dict <$> before) ++ ∅ :: after) filename tr
  = (Raise (KeyError "id"),
     tr ++ [EvOpen filename; EvWriteRow filename (PyStr <$> headers)]
        ++ ((fun p => EvWriteRow filename (row_cells p)) <$> before)
        ++ [EvClose filename]).
Proof.
  intros Hopen.
  rewrite save_to_csv_unfold; [|by destruct before|done].
  rewrite rows_loop_empty_record. by rewrite <- !app_assoc.
Qed.

Lemma save_to_csv_empty_record_raises_witness :
  save_to_csv env_two_ids [to_dict paper_jane; ∅; to_dict paper_bare] "output.csv" []
  = (Raise (KeyError "id"),
     [EvOpen "output.csv";
      EvWriteRow "output.csv"
        [PyStr "id"; PyStr "title"; PyStr "date"; PyStr "authors";
         PyStr "affiliations"; PyStr "corresponding_email"];
      EvWriteRow "output.csv"
        [PyStr "31452104"; PyStr "Screening outcomes"; PyStr "2019";
         PyStr "Jane Doe; WHO Group"; PyStr "Dept. of Oncology"; PyStr "N/A"];
      EvClose "output.csv"]).
Proof.
  apply (save_to_csv_empty_record_raises env_two_ids [paper_jane] [to_dict paper_bare]
           "output.csv" []).
  reflexivity.
Defined.

(** ** The detail extractor *)

Lemma to_dict_lookup_authors p : to_dict p !! "authors" = Some (PyList (rec_authors p)).
Proof. reflexivity. Qed.

Lemma to_dict_lookup_affiliations p :
  to_dict p !! "affiliations" = Some (PyList (rec_affiliations p)).
Proof. reflexivity. Qed.

Lemma extend_nil p : extend p [] [] = p.
Proof. destruct p. unfold extend. simpl. by rewrite !app_nil_r. Qed.

Lemma extend_extend p a1 f1 a2 f2 :
  extend (extend p a1 f1) a2 f2 = extend p (a1 ++ a2) (f1 ++ f2).
Proof. unfold extend. simpl. by rewrite !app_assoc. Qed.

(** Two dicts built by inserts under literal keys are equal when they agree
    key by key. *)
Ltac dict_eq :=
  let i := fresh "i" in
  apply map_eq; intros i;
  repeat match goal with
         | |- context [ <[?k := _]> _ !! i ] =>
             destruct (decide (k = i)) as [<-|];
             [first [reflexivity | done]
             | repeat (rewrite (lookup_insert_ne _ k i) by done)]
         end;
  reflexivity.

(** Appending to one of the two lists of the dict of a record. *)
Lemma append_authors p x tr :
  append_to (to_dict p) "authors" x tr = (Return (to_dict (extend p [x] [])), tr).
Proof.
  unfold append_to, bind, getitem. rewrite to_dict_lookup_authors. unfold ret.
  f_equal. f_equal. unfold to_dict, extend. simpl. rewrite app_nil_r.
  dict_eq.
Qed.

Lemma append_affiliations p x tr :
  append_to (to_dict p) "affiliations" x tr = (Return (to_dict (extend p [] [x])), tr).
Proof.
  unfold append_to, bind, getitem. rewrite to_dict_lookup_affiliations. unfold ret.
  f_equal. f_equal. unfold to_dict, extend. simpl. rewrite app_nil_r.
  dict_eq.
Qed.

(** One round of the author loop on the dict of a record. *)
Lemma author_body_to_dict p author tr :
  author_body (to_dict p) author tr
  = (Return (to_dict (extend p (author_name author) (author_affiliation author))), tr).
Proof.
  unfold author_body, author_name, author_affiliation.
  destruct (if_truthy (findtext author "CollectiveName")) as [name|].
  - rewrite (bind_Return _ _ _ _ _ (append_authors p name tr)).
    destruct (if_truthy (findtext author ".//AffiliationInfo/Affiliation")) as [a|].
    + rewrite append_affiliations, extend_extend. reflexivity.
    + reflexivity.
  - destruct (if_truthy (findtext author "LastName")) as [last|],
             (if_truthy (findtext author "ForeName")) as [fore|];
      try rewrite (bind_Return _ _ _ _ _ (append_authors p _ tr));
      try (unfold bind, ret at 1);
      destruct (if_truthy (findtext author ".//AffiliationInfo/Affiliation")) as [a|];
      rewrite ?append_affiliations, ?extend_extend, ?extend_nil; reflexivity.
Qed.

Lemma author_loop authors p tr :
  for_each author_body authors (to_dict p) tr
  = (Return (to_dict (extend p (flat_map author_name authors)
                               (flat_map author_affiliation authors))), tr).
Proof.
  revert p. induction authors as [|author authors IH]; intros p; simpl.
  - by rewrite extend_nil.
  - rewrite (bind_Return _ _ _ _ _ (author_body_to_dict p author tr)).
    rewrite IH. by rewrite extend_extend.
Qed.

Lemma new_paper_details_to_dict paper_id root :
  new_paper_details paper_id root
  = to_dict {| rec_id := paper_id;
               rec_title := rec_title (extracted paper_id root);
               rec_date := rec_date (extracted paper_id root);
               rec_authors := [];
               rec_affiliations := [];
               rec_email := rec_email (extracted paper_id root) |}.
Proof.
  unfold new_paper_details, to_dict, extracted. simpl. do 3 f_equal.
  f_equal. unfold py_or, if_truthy.
  destruct (findtext root ".//PubDate/Year") as [y|]; [|done].
  simpl. by destruct (String.eqb y "").
Qed.

Section Extractor.
Context (env : Env) (paper_id : string).

(** A response that parses: the dict of the extracted record is returned,
    with no further effect. *)
Lemma fetch_paper_details_parsed tr response tr1 root :
  safe_request env (BASE_URL +:+ "/efetch.fcgi")
    [("db", PyStr "pubmed"); ("id", PyStr paper_id); ("retmode", PyStr "xml")] 3 2 tr
  = (Return response, tr1) ->
  ET_fromstring env (content response) = Parsed root ->
  fetch_paper_details env paper_id tr = (Return (to_dict (extracted paper_id root)), tr1).
Proof.
  intros Hreq Hparse. unfold fetch_paper_details. cbv zeta.
  rewrite (bind_Return _ _ _ _ _ Hreq).
  unfold try_except, fromstring, bind at 1. rewrite Hparse. unfold bind at 1, ret at 1 2.
  rewrite new_paper_details_to_dict, author_loop. reflexivity.
Qed.


End Extractor.

(** What the paths of the extractor select: [.//t] the elements below the
    context element that carry the tag [t], in document order; [.//a/b] the
    [b] children of those tagged [a]; a bare tag the children that carry
    it. *)
Lemma findall_author root :
  findall root ".//Author" = List.filter (has_tag "Author") (descendants root).
Proof.
  unfold findall. change (parse_path ".//Author") with [Descendant "Author"].
  simpl. by rewrite app_nil_r.
Qed.

Lemma findall_title root :
  findall root ".//ArticleTitle" = List.filter (has_tag "ArticleTitle") (descendants root).
Proof.
  unfold findall. change (parse_path ".//ArticleTitle") with [Descendant "ArticleTitle"].
  simpl. by rewrite app_nil_r.
Qed.

Lemma findall_medline_date root :
  findall root ".//MedlineDate" = List.filter (has_tag "MedlineDate") (descendants root).
Proof.
  unfold findall. change (parse_path ".//MedlineDate") with [Descendant "MedlineDate"].
  simpl. by rewrite app_nil_r.
Qed.

Lemma findall_year root :
  findall root ".//PubDate/Year"
  = flat_map (fun d => List.filter (has_tag "Year") (children d))
      (List.filter (has_tag "PubDate") (descendants root)).
Proof.
  unfold findall.
  change (parse_path ".//PubDate/Year") with [Descendant "PubDate"; Child "Year"].
  simpl. by rewrite app_nil_r.
Qed.

Lemma findall_email root :
  findall root ".//AffiliationInfo/Email"
  = flat_map (fun a => List.filter (has_tag "Email") (children a))
      (List.filter (has_tag "AffiliationInfo") (descendants root)).
Proof.
  unfold findall.
  change (parse_path ".//AffiliationInfo/Email")
    with [Descendant "AffiliationInfo"; Child "Email"].
  simpl. by rewrite app_nil_r.
Qed.

Lemma if_truthy_Some o s : o = Some s -> s <> "" -> if_truthy o = Some s.
Proof.
  intros -> Hs. simpl. by destruct (String.eqb_spec s "").
Qed.

Lemma if_truthy_None o : o = None \/ o = Some "" -> if_truthy o = None.
Proof. by intros [-> | ->]. Qed.

Lemma returned_field_Return d tr key :
  returned_field (Return d, tr) key = d !! key.
Proof. reflexivity. Qed.

(** C5 (amended).  For a response that parses to [root], the authors list
    of the returned record is built from the author nodes below the root in
    document order, each adding: its collective name when that field is
    present with a text that is not empty; otherwise fore name, a space and
    last name when both fields are present with texts that are not empty;
    otherwise nothing. *)
Theorem fetch_paper_details_authors env paper_id tr response tr1 root :
  safe_request env (BASE_URL +:+ "/efetch.fcgi")
    [("db", PyStr "pubmed"); ("id", PyStr paper_id); ("retmode", PyStr "xml")] 3 2 tr
  = (Return response, tr1) ->
  ET_fromstring env (content response) = Parsed root ->
  returned_field (fetch_paper_details env paper_id tr) "authors"
  = Some (PyList (flat_map author_name
                    (List.filter (has_tag "Author") (descendants root))))
  /\ (forall author name,
        findtext author "CollectiveName" = Some name -> name <> "" ->
        author_name author = [name])
  /\ (forall author fore last,
        findtext author "CollectiveName" = None
        \/ findtext author "CollectiveName" = Some "" ->
        findtext author "ForeName" = Some fore -> fore <> "" ->
        findtext author "LastName" = Some last -> last <> "" ->
        author_name author = [fore +:+ " " +:+ last])
  /\ (forall author,
        findtext author "CollectiveName" = None
        \/ findtext author "CollectiveName" = Some "" ->
        (findtext author "ForeName" = None \/ findtext author "ForeName" = Some "")
        \/ (findtext author "LastName" = None \/ findtext author "LastName" = Some "") ->
        author_name author = []).
Proof.
  intros Hreq Hparse. repeat split.
  - rewrite (fetch_paper_details_parsed env paper_id tr response tr1 root Hreq Hparse).
    rewrite returned_field_Return, to_dict_lookup_authors.
    unfold extracted. simpl. by rewrite findall_author.
  - intros author name Hc Hne. unfold author_name.
    by rewrite (if_truthy_Some _ _ Hc Hne).
  - intros author fore last Hc Hf Hfne Hl Hlne. unfold author_name.
    rewrite (if_truthy_None _ Hc).
    by rewrite (if_truthy_Some _ _ Hl Hlne), (if_truthy_Some _ _ Hf Hfne).
  - intros author Hc [Hf|Hl]; unfold author_name; rewrite (if_truthy_None _ Hc).
    + rewrite (if_truthy_None _ Hf). by destruct (if_truthy (findtext author "LastName")).
    + by rewrite (if_truthy_None _ Hl).
Qed.

Lemma fetch_paper_details_authors_witness :
  returned_field (fetch_paper_details (env_serving doc_three_authors) "31452104" []) "authors"
  = Some (PyList ["WHO Group"; "Jane Doe"])
  /\ author_name (Elem "Author" None [Elem "CollectiveName" (Some "WHO Group") []])
     = ["WHO Group"]
  /\ author_name (Elem "Author" None [Elem "LastName" (Some "Doe") [];
                                      Elem "ForeName" (Some "Jane") []])
     = ["Jane" +:+ " " +:+ "Doe"]
  /\ author_name (Elem "Author" None [Elem "LastName" (Some "Solo") []]) = [].
Proof.
  destruct (fetch_paper_details_authors (env_serving doc_three_authors) "31452104" []
              {| status_code := 200; content := "<PubmedArticleSet/>" |}
              [EvGet (BASE_URL +:+ "/efetch.fcgi")
                 [("db", PyStr "pubmed"); ("id", PyStr "31452104"); ("retmode", PyStr "xml")]]
              doc_three_authors eq_refl eq_refl)
    as (Hauthors & Hcollective & Hpersonal & Hnone).
  split; [exact Hauthors|]. split; [|split].
  - apply Hcollective; [reflexivity|discriminate].
  - apply Hpersonal; [by left|reflexivity|discriminate|reflexivity|discriminate].
  - apply Hnone; [by left|]. left. by left.
Defined.

(** An author node whose collective-name field is present and empty, next
    to a fore name and a last name: the extractor records the personal
    name, where the rule of the specification takes the (empty) collective
    name. *)
Lemma fetch_paper_details_empty_collective_name :
  returned_field (fetch_paper_details (env_serving doc_empty_fields) "31452104" []) "authors"
  = Some (PyList ["Jane Doe"])
  /\ flat_map spec_author_name
       (List.filter (has_tag "Author") (descendants doc_empty_fields)) = [""]
  /\ ["Jane Doe"] <> [""].
Proof. repeat split. discriminate. Qed.

(** C9 (amended).  For a response that parses to [root], the returned
    record has: as title the text of the first article-title element below
    the root, absent without one; as date the text of the first year
    element under a publication-date element when that text is not empty,
    otherwise (no such element, or an empty text) the text of the first
    Medline-date element, absent without one; as corresponding email the
    text of the first email element under any affiliation-info element
    below the root, absent without one. *)
Theorem fetch_paper_details_title_date_email env paper_id tr response tr1 root :
  safe_request env (BASE_URL +:+ "/efetch.fcgi")
    [("db", PyStr "pubmed"); ("id", PyStr paper_id); ("retmode", PyStr "xml")] 3 2 tr
  = (Return response, tr1) ->
  ET_fromstring env (content response) = Parsed root ->
  let title := first_text (List.filter (has_tag "ArticleTitle") (descendants root)) in
  let year :=
    first_text (flat_map (fun d => List.filter (has_tag "Year") (children d))
                  (List.filter (has_tag "PubDate") (descendants root))) in
  let medline_date := first_text (List.filter (has_tag "MedlineDate") (descendants root)) in
  let email :=
    first_text (flat_map (fun a => List.filter (has_tag "Email") (children a))
                  (List.filter (has_tag "AffiliationInfo") (descendants root))) in
  returned_field (fetch_paper_details env paper_id tr) "title" = Some (of_opt title)
  /\ returned_field (fetch_paper_details env paper_id tr) "date"
     = Some (match year with
             | Some y => if String.eqb y "" then of_opt medline_date else PyStr y
             | None => of_opt medline_date
             end)
  /\ returned_field (fetch_paper_details env paper_id tr) "corresponding_email"
     = Some (of_opt email).
Proof.
  intros Hreq Hparse. cbv zeta.
  rewrite (fetch_paper_details_parsed env paper_id tr response tr1 root Hreq Hparse).
  rewrite !returned_field_Return.
  rewrite <- findall_title, <- findall_year, <- findall_medline_date, <- findall_email.
  repeat split.
  change (to_dict (extracted paper_id root) !! "date")
    with (Some (of_opt (rec_date (extracted paper_id root)))).
  f_equal. unfold extracted, rec_date, findtext, if_truthy.
  destruct (first_text (findall root ".//PubDate/Year")) as [y|]; [|done].
  by destruct (String.eqb y "").
Qed.

Lemma fetch_paper_details_title_date_email_witness :
  returned_field (fetch_paper_details (env_serving doc_three_authors) "31452104" []) "title"
  = Some (PyStr "Screening outcomes")
  /\ returned_field (fetch_paper_details (env_serving doc_three_authors) "31452104" []) "date"
     = Some (PyStr "2019")
  /\ returned_field (fetch_paper_details (env_serving doc_three_authors) "31452104" [])
       "corresponding_email"
     = Some (PyStr "jane@example.org").
Proof.
  apply (fetch_paper_details_title_date_email (env_serving doc_three_authors) "31452104" []
           {| status_code := 200; content := "<PubmedArticleSet/>" |}
           [EvGet (BASE_URL +:+ "/efetch.fcgi")
              [("db", PyStr "pubmed"); ("id", PyStr "31452104"); ("retmode", PyStr "xml")]]
           doc_three_authors eq_refl eq_refl).
Defined.

(** A publication date whose year element is present and empty, next to a
    Medline date: the extractor records the Medline date, where the rule of
    the specification takes the (empty) year because the year is not
    absent. *)
Lemma fetch_paper_details_empty_year :
  returned_field (fetch_paper_details (env_serving doc_empty_fields) "31452104" []) "date"
  = Some (PyStr "2020 Spring")
  /\ of_opt (spec_date doc_empty_fields) = PyStr ""
  /\ PyStr "2020 Spring" <> PyStr "".
Proof. repeat split. discriminate. Qed.

(** The affiliations list: for every author node below the root, in
    document order, the text of its first affiliation element under an
    affiliation-info element below it, when there is one with a text that
    is not empty.  The list is not aligned with the authors list. *)
Theorem fetch_paper_details_affiliations env paper_id tr response tr1 root :
  safe_request env (BASE_URL +:+ "/efetch.fcgi")
    [("db", PyStr "pubmed"); ("id", PyStr paper_id); ("retmode", PyStr "xml")] 3 2 tr
  = (Return response, tr1) ->
  ET_fromstring env (content response) = Parsed root ->
  returned_field (fetch_paper_details env paper_id tr) "affiliations"
  = Some (PyList (flat_map author_affiliation
                    (List.filter (has_tag "Author") (descendants root))))
  /\ (forall author,
        author_affiliation author
        = match first_text
                  (flat_map (fun a => List.filter (has_tag "Affiliation") (children a))
                     (List.filter (has_tag "AffiliationInfo") (descendants author))) with
          | Some a => if String.eqb a "" then [] else [a]
          | None => []
          end).
Proof.
  intros Hreq Hparse. split.
  - rewrite (fetch_paper_details_parsed env paper_id tr response tr1 root Hreq Hparse).
    rewrite returned_field_Return, to_dict_lookup_affiliations.
    unfold extracted. simpl. by rewrite findall_author.
  - intros author. unfold author_affiliation, findtext, findall.
    change (parse_path ".//AffiliationInfo/Affiliation")
      with [Descendant "AffiliationInfo"; Child "Affiliation"].
    simpl. rewrite app_nil_r.
    destruct (first_text _) as [a|]; [|done].
    simpl. by destruct (String.eqb a "").
Qed.

Lemma fetch_paper_details_affiliations_witness :
  returned_field (fetch_paper_details (env_serving doc_three_authors) "31452104" [])
    "affiliations"
  = Some (PyList ["Dept. of Oncology"]).
Proof.
  apply (fetch_paper_details_affiliations (env_serving doc_three_authors) "31452104" []
           {| status_code := 200; content := "<PubmedArticleSet/>" |}
           [EvGet (BASE_URL +:+ "/efetch.fcgi")
              [("db", PyStr "pubmed"); ("id", PyStr "31452104"); ("retmode", PyStr "xml")]]
           doc_three_authors eq_refl eq_refl).
Defined.

(** ** A batch of detail fetches *)





(** The main program on three identifiers when the second answer is
    malformed: the three fetches complete, and the export stops with
    [KeyError] after the header and the first row. *)
Example malformed_detail_aborts_export :
  fetch_and_save env_second_malformed ["31452104"; "29860986"; "27000000"] "output.csv" []
  = (Raise (KeyError "id"),
     [EvGet (BASE_URL +:+ "/efetch.fcgi")
        [("db", PyStr "pubmed"); ("id", PyStr "31452104"); ("retmode", PyStr "xml")];
      EvGet (BASE_URL +:+ "/efetch.fcgi")
        [("db", PyStr "pubmed"); ("id", PyStr "29860986"); ("retmode", PyStr "xml")];
      EvLog ERROR "Error parsing XML for paper 29860986: mismatched tag";
      EvGet (BASE_URL +:+ "/efetch.fcgi")
        [("db", PyStr "pubmed"); ("id", PyStr "27000000"); ("retmode", PyStr "xml")];
      EvOpen "output.csv";
      EvWriteRow "output.csv"
        [PyStr "id"; PyStr "title"; PyStr "date"; PyStr "authors";
         PyStr "affiliations"; PyStr "corresponding_email"];
      EvWriteRow "output.csv"
        [PyStr "31452104"; PyStr "Screening outcomes"; PyStr "2019";
         PyStr "WHO Group; Jane Doe"; PyStr "Dept. of Oncology"; PyStr "jane@example.org"];
      EvClose "output.csv"]).
Proof. vm_compute. reflexivity. Qed.

(** ** The executor under any transport *)






(** With [retries] zero or negative no attempt is made: [safe_request]
    raises [RuntimeError] at once, with no request, log record or sleep. *)
Theorem safe_request_no_attempts env url params retries delay tr :
  retries <= 0 ->
  safe_request env url params retries delay tr
  = (Raise (RuntimeError "Failed to connect to PubMed API after multiple retries."), tr).
Proof.
  intros Hr. unfold safe_request, range.
  replace (Z.to_nat retries) with 0%nat by lia. reflexivity.
Qed.

Lemma safe_request_no_attempts_witness :
  safe_request env_two_ids "u" [] 0 2 []
  = (Raise (RuntimeError "Failed to connect to PubMed API after multiple retries."), []).
Proof. apply (safe_request_no_attempts env_two_ids "u" [] 0 2 []). lia. Defined.



(** ** What a computation may append to the trace *)

Section Only.
Context (allowed : event -> bool).

Lemma only_ret {A} (a : A) : only allowed (ret a).
Proof. intros tr. exists []. by rewrite app_nil_r. Qed.

Lemma only_raise {A} e : only allowed (@raise A e).
Proof. intros tr. exists []. by rewrite app_nil_r. Qed.

Lemma only_emit ev : allowed ev = true -> only allowed (emit ev).
Proof. intros H tr. exists [ev]. simpl. by rewrite H. Qed.

Lemma only_bind {A B} (m : Py A) (k : A -> Py B) :
  only allowed m -> (forall a, only allowed (k a)) -> only allowed (bind m k).
Proof.
  intros Hm Hk tr. destruct (Hm tr) as (added & Htr & Hall).
  unfold bind. destruct (m tr) as [[a|e] tr1]; simpl in Htr; subst tr1.
  - destruct (Hk a (tr ++ added)) as (added' & Htr' & Hall').
    exists (added ++ added'). rewrite Htr', app_assoc. split; [done|].
    rewrite List.forallb_app. by rewrite Hall, Hall'.
  - by exists added.
Qed.

Lemma only_try_except {A} (body : Py A) handler :
  only allowed body ->
  (forall e h, handler e = Some h -> only allowed h) ->
  only allowed (try_except body handler).
Proof.
  intros Hbody Hh tr. destruct (Hbody tr) as (added & Htr & Hall).
  unfold try_except. destruct (body tr) as [[a|e] tr1]; simpl in Htr; subst tr1.
  - by exists added.
  - destruct (handler e) as [h|] eqn:He; [|by exists added].
    destruct (Hh e h He (tr ++ added)) as (added' & Htr' & Hall').
    exists (added ++ added'). rewrite Htr', app_assoc. split; [done|].
    rewrite List.forallb_app. by rewrite Hall, Hall'.
Qed.

Lemma only_for_return {I A} (body : I -> Py (option A)) items :
  (forall i, only allowed (body i)) -> only allowed (for_return body items).
Proof.
  intros Hbody. induction items as [|i rest IH]; simpl.
  - apply only_ret.
  - apply only_bind; [done|]. intros [a|]; [apply only_ret|done].
Qed.

Lemma only_for_each {I S} (body : S -> I -> Py S) items s :
  (forall s i, only allowed (body s i)) -> only allowed (for_each body items s).
Proof.
  intros Hbody. revert s. induction items as [|i rest IH]; intros s; simpl.
  - apply only_ret.
  - apply only_bind; [done|]. intros s'. apply IH.
Qed.

Lemma only_comprehension {I A} (f : I -> Py A) items :
  (forall i, only allowed (f i)) -> only allowed (comprehension f items).
Proof.
  intros Hf. induction items as [|i rest IH]; simpl.
  - apply only_ret.
  - apply only_bind; [done|]. intros a. apply only_bind; [done|].
    intros l. apply only_ret.
Qed.

End Only.

Lemma only_weaken {A} (p q : event -> bool) (m : Py A) :
  (forall ev, p ev = true -> q ev = true) -> only p m -> only q m.
Proof.
  intros Hpq Hm tr. destruct (Hm tr) as (added & Htr & Hall).
  exists added. split; [done|].
  rewrite forallb_forall in *. auto.
Qed.

(** The events of the network side: requests, log records and sleeps. *)
Lemma safe_request_only_network env url params retries delay :
  only no_file (safe_request env url params retries delay).
Proof.
  unfold safe_request. apply only_bind.
  - apply only_for_return. intros attempt. unfold request_attempt.
    apply only_try_except.
    + apply only_bind.
      * intros tr. unfold httpx_get.
        destruct (http_get env (count_gets tr) url params);
          by exists [EvGet url params].
      * intros r. apply only_bind; [|intros; apply only_ret].
        unfold raise_for_status. destruct (is_success r); [apply only_ret|apply only_raise].
    + intros e h. destruct e; try done. intros [= <-].
      apply only_bind; [by apply only_emit|]. intros _.
      apply only_bind; [|intros; apply only_ret].
      unfold time_sleep. destruct (delay <? 0); [apply only_raise|by apply only_emit].
  - intros [r|]; [apply only_ret|apply only_raise].
Qed.

Lemma search_papers_only_network env query max_results :
  only no_file (search_papers env query max_results).
Proof.
  unfold search_papers. destruct (negb (truthy (PyStr (strip query)))).
  - apply only_bind; [by apply only_emit|]. intros; apply only_ret.
  - cbv zeta. apply only_bind; [apply safe_request_only_network|]. intros response.
    apply only_bind.
    { unfold response_json. destruct (json_loads env (content response));
        [apply only_ret|apply only_raise]. }
    intros data. apply only_bind.
    { unfold json_get. destruct data; try apply only_raise. apply only_ret. }
    intros res. apply only_bind.
    { unfold json_get. destruct res; try apply only_raise. apply only_ret. }
    intros ids. apply only_bind; [|intros; apply only_ret].
    destruct (negb (json_truthy ids)); [by apply only_emit|apply only_ret].
Qed.

Lemma append_to_only allowed d key x : only allowed (append_to d key x).
Proof.
  unfold append_to. apply only_bind.
  - unfold getitem. destruct (d !! key); [apply only_ret|apply only_raise].
  - intros [| | |items]; try apply only_raise. apply only_ret.
Qed.

Lemma fetch_paper_details_only_network env paper_id :
  only no_file (fetch_paper_details env paper_id).
Proof.
  unfold fetch_paper_details. cbv zeta.
  apply only_bind; [apply safe_request_only_network|]. intros response.
  apply only_bind.
  - apply only_try_except.
    + apply only_bind; [|intros; apply only_ret].
      unfold fromstring. destruct (ET_fromstring env (content response));
        [apply only_ret|apply only_raise].
    + intros e h. destruct e; try done. intros [= <-].
      apply only_bind; [by apply only_emit|]. intros; apply only_ret.
  - intros [root|]; [|apply only_ret].
    apply only_for_each. intros d author. unfold author_body. cbv zeta.
    apply only_bind.
    + destruct (if_truthy (findtext author "CollectiveName")); [apply append_to_only|].
      destruct (if_truthy (findtext author "LastName")),
               (if_truthy (findtext author "ForeName"));
        first [apply append_to_only|apply only_ret].
    + intros d'. destruct (if_truthy (findtext author ".//AffiliationInfo/Affiliation"));
        [apply append_to_only|apply only_ret].
Qed.

Lemma only_no_file_filter {A} (m : Py A) tr :
  only no_file m ->
  List.filter is_file_event (snd (m tr)) = List.filter is_file_event tr.
Proof.
  intros Hm. destruct (Hm tr) as (added & -> & Hall).
  rewrite List.filter_app.
  assert (List.filter is_file_event added = []) as ->; [|by rewrite app_nil_r].
  clear -Hall. induction added as [|ev added IH]; [done|].
  simpl in Hall. apply andb_prop in Hall as [Hev Hrest].
  unfold no_file in Hev. simpl. destruct (is_file_event ev); [done|auto].
Qed.

(** Neither the search nor a detail fetch touches a file: whatever the
    transport and the decoders do, and however the call ends, the file
    events of the trace are those it started with. *)
Theorem network_side_leaves_files_alone env tr :
  (forall query max_results,
     List.filter is_file_event (snd (search_papers env query max_results tr))
     = List.filter is_file_event tr)
  /\ (forall paper_id,
        List.filter is_file_event (snd (fetch_paper_details env paper_id tr))
        = List.filter is_file_event tr)
  /\ (forall paper_ids,
        List.filter is_file_event
          (snd (comprehension (fetch_paper_details env) paper_ids tr))
        = List.filter is_file_event tr).
Proof.
  split; [|split].
  - intros query max_results. apply only_no_file_filter, search_papers_only_network.
  - intros paper_id. apply only_no_file_filter, fetch_paper_details_only_network.
  - intros paper_ids. apply only_no_file_filter, only_comprehension.
    intros i. apply fetch_paper_details_only_network.
Qed.

(** ** The exporter and its file *)

Lemma getitem_only allowed d key : only allowed (getitem d key).
Proof. unfold getitem. destruct (d !! key); [apply only_ret|apply only_raise]. Qed.

Lemma str_join_only allowed sep v : only allowed (str_join sep v).
Proof. unfold str_join. destruct v; first [apply only_ret|apply only_raise]. Qed.

Lemma writerow_headers_only filename rowdict :
  only (export_event filename) (writerow filename headers rowdict).
Proof.
  unfold writerow. destruct (forallb _ rowdict); [|apply only_raise].
  apply only_emit. simpl. by rewrite String.eqb_refl.
Qed.

Lemma paper_row_only filename paper :
  only (export_event filename) (paper_row filename paper).
Proof.
  unfold paper_row.
  repeat (apply only_bind; [first [apply getitem_only|apply str_join_only]|intros ?]).
  apply writerow_headers_only.
Qed.

(** [save_to_csv] on any list of dicts, well-formed or not, and however it
    ends: all it appends to the trace are log records and the opening, the
    closing and rows of [filename], every row with six cells, the number of
    columns of the header.  It issues no request, never sleeps and touches
    no other file. *)
Theorem save_to_csv_only_its_file env papers filename tr :
  exists added,
    snd (save_to_csv env papers filename tr) = tr ++ added
    /\ forallb (export_event filename) added = true.
Proof.
  revert tr. change (only (export_event filename) (save_to_csv env papers filename)).
  unfold save_to_csv. destruct (Nat.eqb (length papers) 0).
  { by apply only_emit. }
  apply only_bind; [|intros; by apply only_emit].
  unfold with_open. destruct (can_open env filename); [|apply only_raise].
  intros tr.
  assert (only (export_event filename)
            (writeheader filename headers ;;;
             for_each (fun _ paper => paper_row filename paper) papers tt)) as Hbody.
  { apply only_bind; [apply writerow_headers_only|]. intros _.
    apply only_for_each. intros _ paper. apply paper_row_only. }
  destruct (Hbody (tr ++ [EvOpen filename])) as (added & Htr & Hall).
  destruct ((writeheader filename headers ;;;
             for_each (fun _ paper => paper_row filename paper) papers tt)
              (tr ++ [EvOpen filename])) as [r tr1].
  simpl in Htr. subst tr1. simpl.
  exists ([EvOpen filename] ++ added ++ [EvClose filename]).
  rewrite <- !app_assoc. split; [done|].
  rewrite !List.forallb_app, Hall. simpl. by rewrite String.eqb_refl.
Qed.



(** ** Failures of the transport in the search and in a batch *)

Lemma safe_request_exhausted env url params retries delay tr :
  0 <= delay ->
  (forall j, (j < Z.to_nat retries)%nat ->
     attempt_fails env (count_gets tr + j) url params) ->
  exists tr',
    safe_request env url params retries delay tr
    = (Raise (RuntimeError "Failed to connect to PubMed API after multiple retries."), tr')
    /\ count_gets tr' = (count_gets tr + Z.to_nat retries)%nat
    /\ count_sleeps tr' = (count_sleeps tr + Z.to_nat retries)%nat.
Proof.
  intros Hd Hall.
  destruct (retry_loop_all_fail env url params retries delay
              (Z.to_nat retries) 0%nat tr Hd Hall) as (tr' & Hrun & Hg & Hs).
  exists tr'. split; [|done].
  unfold safe_request, range. by rewrite (bind_Return _ _ _ _ _ Hrun).
Qed.

(** A search whose three attempts all fail: the [RuntimeError] of the
    executor leaves [search_papers] uncaught, after three requests and
    three sleeps; the payload is never decoded. *)
Theorem search_papers_transport_down env query max_results tr :
  strip query <> "" ->
  (forall j, (j < 3)%nat ->
     attempt_fails env (count_gets tr + j) (BASE_URL +:+ "/esearch.fcgi")
       [("db", PyStr "pubmed"); ("term", PyStr query);
        ("retmax", PyInt max_results); ("retmode", PyStr "json")]) ->
  exists tr',
    search_papers env query max_results tr
    = (Raise (RuntimeError "Failed to connect to PubMed API after multiple retries."), tr')
    /\ count_gets tr' = (count_gets tr + 3)%nat
    /\ count_sleeps tr' = (count_sleeps tr + 3)%nat.
Proof.
  intros Hq Hall.
  destruct (safe_request_exhausted env (BASE_URL +:+ "/esearch.fcgi")
              [("db", PyStr "pubmed"); ("term", PyStr query);
               ("retmax", PyInt max_results); ("retmode", PyStr "json")] 3 2 tr
              ltac:(lia) Hall) as (tr' & Hrun & Hg & Hs).
  exists tr'. split; [|done].
  assert (truthy (PyStr (strip query)) = true) as Ht.
  { simpl. destruct (String.eqb_spec (strip query) ""); [done|reflexivity]. }
  unfold search_papers. rewrite Ht. cbn [negb]. cbv zeta.
  by rewrite (bind_Raise _ _ _ _ _ Hrun).
Qed.

Lemma search_papers_transport_down_witness :
  exists tr',
    search_papers env_down "cancer" 10 []
    = (Raise (RuntimeError "Failed to connect to PubMed API after multiple retries."), tr')
    /\ count_gets tr' = (count_gets [] + 3)%nat
    /\ count_sleeps tr' = (count_sleeps [] + 3)%nat.
Proof.
  apply (search_papers_transport_down env_down "cancer" 10 []); [discriminate|].
  intros j _. by exists "timed out".
Defined.

Lemma comprehension_app {I A} (f : I -> Py A) before rest tr papers tr1 :
  comprehension f before tr = (Return papers, tr1) ->
  comprehension f (before ++ rest) tr
  = (l <- comprehension f rest ;; ret (papers ++ l)) tr1.
Proof.
  revert tr papers. induction before as [|i before IH]; intros tr papers; simpl.
  - intros [= <- <-]. unfold bind, ret. by destruct (comprehension f rest tr) as [[l|e] tr'].
  - intros H. unfold bind, ret in H. unfold bind at 1.
    destruct (f i tr) as [[a|e] tr0]; [|done].
    destruct (comprehension f before tr0) as [[l|e] tr2] eqn:Hl; [|done].
    injection H as <- <-. unfold bind at 1. rewrite (IH tr0 l Hl).
    unfold bind, ret. by destruct (comprehension f rest tr2) as [[l'|e] tr'].
Qed.

(** A detail fetch whose three attempts all fail aborts the whole batch:
    the [RuntimeError] leaves the main steps uncaught, the identifiers
    after it are never requested, and the records fetched before it are
    dropped without any file being opened. *)
Theorem fetch_and_save_transport_down env before paper_id rest file tr papers tr1 :
  comprehension (fetch_paper_details env) before tr = (Return papers, tr1) ->
  (forall j, (j < 3)%nat ->
     attempt_fails env (count_gets tr1 + j) (BASE_URL +:+ "/efetch.fcgi")
       [("db", PyStr "pubmed"); ("id", PyStr paper_id); ("retmode", PyStr "xml")]) ->
  exists tr',
    fetch_and_save env (before ++ paper_id :: rest) file tr
    = (Raise (RuntimeError "Failed to connect to PubMed API after multiple retries."), tr')
    /\ count_gets tr' = (count_gets tr1 + 3)%nat
    /\ List.filter is_file_event tr' = List.filter is_file_event tr.
Proof.
  intros Hbefore Hall.
  destruct (safe_request_exhausted env (BASE_URL +:+ "/efetch.fcgi")
              [("db", PyStr "pubmed"); ("id", PyStr paper_id); ("retmode", PyStr "xml")]
              3 2 tr1 ltac:(lia) Hall) as (tr' & Hrun & Hg & _).
  assert (fetch_paper_details env paper_id tr1
          = (Raise (RuntimeError "Failed to connect to PubMed API after multiple retries."),
             tr')) as Hfetch.
  { unfold fetch_paper_details. cbv zeta. by rewrite (bind_Raise _ _ _ _ _ Hrun). }
  assert (comprehension (fetch_paper_details env) (before ++ paper_id :: rest) tr
          = (Raise (RuntimeError "Failed to connect to PubMed API after multiple retries."),
             tr')) as Hbatch.
  { rewrite (comprehension_app _ _ _ _ _ _ Hbefore). simpl.
    unfold bind at 1. by rewrite (bind_Raise _ _ _ _ _ Hfetch). }
  exists tr'. split; [|split; [done|]].
  - unfold fetch_and_save. by rewrite (bind_Raise _ _ _ _ _ Hbatch).
  - assert (only no_file (comprehension (fetch_paper_details env)
                            (before ++ paper_id :: rest))) as Honly.
    { apply only_comprehension. intros i. apply fetch_paper_details_only_network. }
    pose proof (only_no_file_filter _ tr Honly) as Hfiles.
    by rewrite Hbatch in Hfiles.
Qed.

Lemma fetch_and_save_transport_down_witness :
  exists tr',
    fetch_and_save env_second_down (["31452104"] ++ "29860986" :: ["27000000"])
      "output.csv" []
    = (Raise (RuntimeError "Failed to connect to PubMed API after multiple retries."), tr')
    /\ count_gets tr' = (1 + 3)%nat
    /\ List.filter is_file_event tr' = List.filter is_file_event [].
Proof.
  apply (fetch_and_save_transport_down env_second_down ["31452104"] "29860986"
           ["27000000"] "output.csv" []
           [to_dict (extracted "31452104" doc_three_authors)]
           [EvGet (BASE_URL +:+ "/efetch.fcgi")
              [("db", PyStr "pubmed"); ("id", PyStr "31452104"); ("retmode", PyStr "xml")]]
           eq_refl).
  intros j _. by exists "timed out".
Defined.

(** ** Payloads of the search endpoint *)



(** ** Which queries reach the network *)

Lemma whitespace_only_rev_app s1 s2 :
  whitespace_only (String.rev_app s1 s2) = whitespace_only s1 && whitespace_only s2.
Proof.
  revert s2. induction s1 as [|c s1 IH]; intros s2; simpl; [done|].
  rewrite IH. simpl. destruct (py_isspace c), (whitespace_only s1); simpl; try done.
Qed.

Lemma rev_app_empty s1 s2 : String.rev_app s1 s2 = "" -> s1 = "" /\ s2 = "".
Proof.
  revert s2. induction s1 as [|c s1 IH]; intros s2; simpl; [done|].
  intros H. by destruct (IH _ H) as [_ ?].
Qed.

Lemma lstrip_empty s : lstrip s = "" -> whitespace_only s = true.
Proof.
  induction s as [|c s IH]; simpl; [done|].
  destruct (py_isspace c); [auto|done].
Qed.

Lemma whitespace_only_lstrip s : whitespace_only (lstrip s) = true -> whitespace_only s = true.
Proof.
  induction s as [|c s IH]; simpl; [done|].
  destruct (py_isspace c) eqn:Hc; [auto|]. simpl. by rewrite Hc.
Qed.

Lemma strip_empty s : strip s = "" -> whitespace_only s = true.
Proof.
  unfold strip, rstrip, String.rev. intros H.
  apply rev_app_empty in H as [H _]. apply lstrip_empty in H.
  rewrite whitespace_only_rev_app in H. apply andb_prop in H as [H _].
  by apply whitespace_only_lstrip.
Qed.

Lemma request_attempt_first_event env url params retries delay attempt tr :
  exists more,
    snd (request_attempt env url params retries delay attempt tr)
    = tr ++ EvGet url params :: more.
Proof.
  unfold request_attempt, try_except, bind, httpx_get, raise_for_status,
    logging, time_sleep, emit, ret, raise.
  destruct (http_get env (count_gets tr) url params) as [r|d].
  - destruct (is_success r); [by exists []|].
    destruct (delay <? 0); simpl; rewrite <- ?app_assoc; by eexists.
  - destruct (delay <? 0); simpl; rewrite <- ?app_assoc; by eexists.
Qed.

Lemma bind_first_event {A B} (m : Py A) (k : A -> Py B) tr ev :
  (exists more, snd (m tr) = tr ++ ev :: more) ->
  (forall a, only (fun _ => true) (k a)) ->
  exists rest, snd (bind m k tr) = tr ++ ev :: rest.
Proof.
  intros [more Hm] Hk. unfold bind.
  destruct (m tr) as [[a|e] tr1]; simpl in Hm; subst tr1; [|by exists more].
  destruct (Hk a (tr ++ ev :: more)) as (added & -> & _).
  exists (more ++ added). by rewrite <- app_assoc.
Qed.

Lemma only_anything {A} allowed (m : Py A) : only allowed m -> only (fun _ => true) m.
Proof. apply only_weaken. done. Qed.

Lemma request_attempt_only_network env url params retries delay attempt :
  only no_file (request_attempt env url params retries delay attempt).
Proof.
  unfold request_attempt. apply only_try_except.
  - apply only_bind.
    + intros tr. unfold httpx_get.
      destruct (http_get env (count_gets tr) url params);
        by exists [EvGet url params].
    + intros r. apply only_bind; [|intros; apply only_ret].
      unfold raise_for_status. destruct (is_success r); [apply only_ret|apply only_raise].
  - intros e h. destruct e; try done. intros [= <-].
    apply only_bind; [by apply only_emit|]. intros _.
    apply only_bind; [|intros; apply only_ret].
    unfold time_sleep. destruct (delay <? 0); [apply only_raise|by apply only_emit].
Qed.

Lemma safe_request_first_event env url params retries delay tr :
  0 < retries ->
  exists rest,
    snd (safe_request env url params retries delay tr) = tr ++ EvGet url params :: rest.
Proof.
  intros Hr. unfold safe_request, range.
  destruct (Z.to_nat retries) as [|n] eqn:Hn; [lia|]. simpl.
  apply bind_first_event.
  - apply bind_first_event; [apply request_attempt_first_event|].
    intros [r|]; [apply only_ret|].
    apply only_for_return. intros attempt.
    apply (only_anything no_file), request_attempt_only_network.
  - intros [r|]; [apply only_ret|apply only_raise].
Qed.

(** [search_papers] reaches the network exactly for the queries that hold
    a character that is not whitespace.  A whitespace-only query issues no
    request; any other query starts with a request to the search endpoint
    whose [term] is the query as it was given: the trimmed form is used for
    the test only, so surrounding whitespace is sent along. *)
Theorem search_papers_requests_iff_not_blank env query max_results tr :
  (whitespace_only query = true ->
   count_gets (snd (search_papers env query max_results tr)) = count_gets tr)
  /\ (whitespace_only query = false ->
      exists rest,
        snd (search_papers env query max_results tr)
        = tr ++ EvGet (BASE_URL +:+ "/esearch.fcgi")
                  [("db", PyStr "pubmed"); ("term", PyStr query);
                   ("retmax", PyInt max_results); ("retmode", PyStr "json")] :: rest).
Proof.
  split.
  - intros Hw. unfold search_papers. rewrite (strip_whitespace_only _ Hw).
    change (count_gets (tr ++ [EvLog ERROR "Search query cannot be empty."])
            = count_gets tr).
    rewrite count_gets_app. cbn. lia.
  - intros Hw.
    assert (truthy (PyStr (strip query)) = true) as Ht.
    { simpl. destruct (String.eqb_spec (strip query) "") as [He|]; [|done].
      apply strip_empty in He. congruence. }
    unfold search_papers. rewrite Ht. cbn [negb]. cbv zeta.
    apply bind_first_event; [by apply safe_request_first_event|].
    intros response. apply only_bind.
    { unfold response_json. destruct (json_loads env (content response));
        [apply only_ret|apply only_raise]. }
    intros data. apply only_bind.
    { unfold json_get. destruct data; try apply only_raise. apply only_ret. }
    intros res. apply only_bind.
    { unfold json_get. destruct res; try apply only_raise. apply only_ret. }
    intros ids. apply only_bind; [|intros; apply only_ret].
    destruct (negb (json_truthy ids)); [by apply only_emit|apply only_ret].
Qed.

Lemma search_papers_requests_iff_not_blank_witness :
  count_gets (snd (search_papers env_two_ids "  " 10 [])) = count_gets []
  /\ exists rest,
       snd (search_papers env_two_ids " flu " 10 [])
       = [] ++ EvGet (BASE_URL +:+ "/esearch.fcgi")
                 [("db", PyStr "pubmed"); ("term", PyStr " flu ");
                  ("retmax", PyInt 10); ("retmode", PyStr "json")] :: rest.
Proof.
  split.
  - apply (proj1 (search_papers_requests_iff_not_blank env_two_ids "  " 10 [])).
    reflexivity.
  - apply (proj2 (search_papers_requests_iff_not_blank env_two_ids " flu " 10 [])).
    reflexivity.
Defined.

(** ** Shape of the fetched record *)

Lemma to_dict_dom p : dom (to_dict p) = list_to_set headers.
Proof.
  unfold to_dict, headers. rewrite !dom_insert_L, dom_empty_L. simpl. set_solver.
Qed.

(** The record fetched from a response that parses has exactly the six keys
    that the exporter reads, the header names, with the identifier under
    [id]; so its export row is always built, without [KeyError] or
    [TypeError]. *)
Theorem fetch_paper_details_keys env paper_id tr response tr1 root :
  safe_request env (BASE_URL +:+ "/efetch.fcgi")
    [("db", PyStr "pubmed"); ("id", PyStr paper_id); ("retmode", PyStr "xml")] 3 2 tr
  = (Return response, tr1) ->
  ET_fromstring env (content response) = Parsed root ->
  exists d,
    fetch_paper_details env paper_id tr = (Return d, tr1)
    /\ (forall key, is_Some (d !! key) <-> key ∈ headers)
    /\ d !! "id" = Some (PyStr paper_id)
    /\ (forall filename tr2,
          exists cells,
            paper_row filename d tr2 = (Return tt, tr2 ++ [EvWriteRow filename cells])
            /\ length cells = 6%nat
            /\ cells !! 0%nat = Some (PyStr paper_id)).
Proof.
  intros Hreq Hparse. exists (to_dict (extracted paper_id root)).
  split; [by apply (fetch_paper_details_parsed env paper_id tr response tr1 root)|].
  split; [|split; [reflexivity|]].
  - intros key. rewrite <- elem_of_dom, to_dict_dom. set_solver.
  - intros filename tr2. exists (row_cells (extracted paper_id root)).
    split; [apply paper_row_to_dict|]. by split.
Qed.

Lemma fetch_paper_details_keys_witness :
  exists d,
    fetch_paper_details (env_serving doc_three_authors) "31452104" []
    = (Return d,
       [EvGet (BASE_URL +:+ "/efetch.fcgi")
          [("db", PyStr "pubmed"); ("id", PyStr "31452104"); ("retmode", PyStr "xml")]])
    /\ (forall key, is_Some (d !! key) <-> key ∈ headers)
    /\ d !! "id" = Some (PyStr "31452104")
    /\ (forall filename tr2,
          exists cells,
            paper_row filename d tr2 = (Return tt, tr2 ++ [EvWriteRow filename cells])
            /\ length cells = 6%nat
            /\ cells !! 0%nat = Some (PyStr "31452104")).
Proof.
  apply (fetch_paper_details_keys (env_serving doc_three_authors) "31452104" []
           {| status_code := 200; content := "<PubmedArticleSet/>" |}
           [EvGet (BASE_URL +:+ "/efetch.fcgi")
              [("db", PyStr "pubmed"); ("id", PyStr "31452104"); ("retmode", PyStr "xml")]]
           doc_three_authors eq_refl eq_refl).
Defined.

Lemma if_truthy_nonempty o s : if_truthy o = Some s -> s <> "".
Proof.
  destruct o as [s'|]; [|done]. simpl.
  destruct (String.eqb_spec s' ""); [done|]. by intros [= <-].
Qed.

Lemma append_space_nonempty fore last : fore +:+ " " +:+ last <> "".
Proof. by destruct fore. Qed.

Lemma author_name_short author :
  (length (author_name author) <= 1)%nat /\ Forall (fun s => s <> "") (author_name author).
Proof.
  unfold author_name.
  destruct (if_truthy (findtext author "CollectiveName")) as [name|] eqn:Hc.
  { split; [simpl; lia|]. constructor; [by eapply if_truthy_nonempty|constructor]. }
  destruct (if_truthy (findtext author "LastName")) as [last|],
           (if_truthy (findtext author "ForeName")) as [fore|];
    split; simpl; try lia; try constructor; try constructor.
  apply append_space_nonempty.
Qed.

Lemma author_affiliation_short author :
  (length (author_affiliation author) <= 1)%nat
  /\ Forall (fun s => s <> "") (author_affiliation author).
Proof.
  unfold author_affiliation.
  destruct (if_truthy (findtext author ".//AffiliationInfo/Affiliation")) as [a|] eqn:Ha.
  - split; [simpl; lia|]. constructor; [by eapply if_truthy_nonempty|constructor].
  - split; [simpl; lia|constructor].
Qed.

Lemma flat_map_short {A B} (f : A -> list B) (P : B -> Prop) l :
  (forall a, (length (f a) <= 1)%nat /\ Forall P (f a)) ->
  (length (flat_map f l) <= length l)%nat /\ Forall P (flat_map f l).
Proof.
  intros Hf. induction l as [|a l [IHlen IHall]]; simpl; [split; [lia|constructor]|].
  destruct (Hf a) as [Hlen Hall]. rewrite length_app. split; [lia|].
  by apply Forall_app.
Qed.

(** The authors and the affiliations of a fetched record hold at most one
    entry per author node of the document, and never an empty string. *)
Theorem fetch_paper_details_list_bounds env paper_id tr response tr1 root :
  safe_request env (BASE_URL +:+ "/efetch.fcgi")
    [("db", PyStr "pubmed"); ("id", PyStr paper_id); ("retmode", PyStr "xml")] 3 2 tr
  = (Return response, tr1) ->
  ET_fromstring env (content response) = Parsed root ->
  exists authors affiliations,
    returned_field (fetch_paper_details env paper_id tr) "authors" = Some (PyList authors)
    /\ returned_field (fetch_paper_details env paper_id tr) "affiliations"
       = Some (PyList affiliations)
    /\ (length authors
        <= length (List.filter (has_tag "Author") (descendants root)))%nat
    /\ (length affiliations
        <= length (List.filter (has_tag "Author") (descendants root)))%nat
    /\ Forall (fun s => s <> "") authors
    /\ Forall (fun s => s <> "") affiliations.
Proof.
  intros Hreq Hparse.
  rewrite (fetch_paper_details_parsed env paper_id tr response tr1 root Hreq Hparse).
  rewrite !returned_field_Return, to_dict_lookup_authors, to_dict_lookup_affiliations.
  unfold extracted. cbn [rec_authors rec_affiliations]. rewrite findall_author.
  eexists _, _. split; [reflexivity|]. split; [reflexivity|].
  destruct (flat_map_short author_name (fun s => s <> "")
              (List.filter (has_tag "Author") (descendants root)) author_name_short).
  destruct (flat_map_short author_affiliation (fun s => s <> "")
              (List.filter (has_tag "Author") (descendants root)) author_affiliation_short).
  by repeat split.
Qed.

Lemma fetch_paper_details_list_bounds_witness :
  exists authors affiliations,
    returned_field (fetch_paper_details (env_serving doc_three_authors) "31452104" [])
      "authors" = Some (PyList authors)
    /\ returned_field (fetch_paper_details (env_serving doc_three_authors) "31452104" [])
         "affiliations" = Some (PyList affiliations)
    /\ (length authors
        <= length (List.filter (has_tag "Author") (descendants doc_three_authors)))%nat
    /\ (length affiliations
        <= length (List.filter (has_tag "Author") (descendants doc_three_authors)))%nat
    /\ Forall (fun s => s <> "") authors
    /\ Forall (fun s => s <> "") affiliations.
Proof.
  apply (fetch_paper_details_list_bounds (env_serving doc_three_authors) "31452104" []
           {| status_code := 200; content := "<PubmedArticleSet/>" |}
           [EvGet (BASE_URL +:+ "/efetch.fcgi")
              [("db", PyStr "pubmed"); ("id", PyStr "31452104"); ("retmode", PyStr "xml")]]
           doc_three_authors eq_refl eq_refl).
Defined.

(** A document whose root has no children, such as the empty article set
    that the fetch endpoint returns for an identifier it does not know:
    the record has the identifier, no title, no date, no email and empty
    lists, and it is exported as the identifier, four empty cells and
    ["N/A"]. *)
Theorem fetch_paper_details_empty_document env paper_id tr response tr1 root :
  safe_request env (BASE_URL +:+ "/efetch.fcgi")
    [("db", PyStr "pubmed"); ("id", PyStr paper_id); ("retmode", PyStr "xml")] 3 2 tr
  = (Return response, tr1) ->
  ET_fromstring env (content response) = Parsed root ->
  children root = [] ->
  fetch_paper_details env paper_id tr
  = (Return (to_dict {| rec_id := paper_id; rec_title := None; rec_date := None;
                        rec_authors := []; rec_affiliations := [];
                        rec_email := None |}), tr1)
  /\ (forall filename tr2 d,
        fetch_paper_details env paper_id tr = (Return d, tr1) ->
        paper_row filename d tr2
        = (Return tt,
           tr2 ++ [EvWriteRow filename
                     [PyStr paper_id; PyNone; PyNone; PyStr ""; PyStr ""; PyStr "N/A"]])).
Proof.
  intros Hreq Hparse Hleaf.
  assert (fetch_paper_details env paper_id tr
          = (Return (to_dict {| rec_id := paper_id; rec_title := None; rec_date := None;
                                rec_authors := []; rec_affiliations := [];
                                rec_email := None |}), tr1)) as Hrun.
  { rewrite (fetch_paper_details_parsed env paper_id tr response tr1 root Hreq Hparse).
    destruct root as [t x cs]. simpl in Hleaf. subst cs. reflexivity. }
  split; [done|].
  intros filename tr2 d. rewrite Hrun. intros [= <-]. apply paper_row_to_dict.
Qed.

Lemma fetch_paper_details_empty_document_witness :
  fetch_paper_details (env_serving (Elem "PubmedArticleSet" None [])) "99999999" []
  = (Return (to_dict {| rec_id := "99999999"; rec_title := None; rec_date := None;
                        rec_authors := []; rec_affiliations := [];
                        rec_email := None |}),
     [EvGet (BASE_URL +:+ "/efetch.fcgi")
        [("db", PyStr "pubmed"); ("id", PyStr "99999999"); ("retmode", PyStr "xml")]]).
Proof.
  apply (fetch_paper_details_empty_document
           (env_serving (Elem "PubmedArticleSet" None [])) "99999999" []
           {| status_code := 200; content := "<PubmedArticleSet/>" |}
           [EvGet (BASE_URL +:+ "/efetch.fcgi")
              [("db", PyStr "pubmed"); ("id", PyStr "99999999"); ("retmode", PyStr "xml")]]
           (Elem "PubmedArticleSet" None []) eq_refl eq_refl eq_refl).
Defined.

(** ** Records that the exporter cannot write *)

Lemma rows_loop_failing filename before bad after e tr :
  (forall tr0, paper_row filename bad tr0 = (Raise e, tr0)) ->
  for_each (fun _ paper => paper_row filename paper)
    ((to_dict <$> before) ++ bad :: after) tt tr
  = (Raise e, tr ++ ((fun p => EvWriteRow filename (row_cells p)) <$> before)).
Proof.
  intros Hbad. revert tr. induction before as [|p ps IH]; intros tr; simpl.
  - rewrite (bind_Raise _ _ _ _ _ (Hbad tr)). by rewrite app_nil_r.
  - rewrite (bind_Return _ _ _ _ _ (paper_row_to_dict filename p tr)).
    rewrite IH. by rewrite <- app_assoc.
Qed.

Lemma paper_row_missing_key filename p key tr :
  key ∈ headers ->
  paper_row filename (delete key (to_dict p)) tr = (Raise (KeyError key), tr).
Proof.
  intros Hkey. destruct p. unfold headers in Hkey.
  repeat (apply elem_of_cons in Hkey as [->|Hkey]; [reflexivity|]).
  by apply elem_of_nil in Hkey.
Qed.

(** A record that lacks one of the six keys stops the export with
    [KeyError] for that key: the header and the rows of the records before
    it are written and the file is closed, the records after it are never
    reached, and the completion message is not logged. *)
Theorem save_to_csv_missing_key env before p key after filename tr :
  can_open env filename = true ->
  key ∈ headers ->
  save_to_csv env ((to_dict <$> before) ++ delete key (to_dict p) :: after) filename tr
  = (Raise (KeyError key),
     tr ++ [EvOpen filename; EvWriteRow filename (PyStr <$> headers)]
        ++ ((fun p => EvWriteRow filename (row_cells p)) <$> before)
        ++ [EvClose filename]).
Proof.
  intros Hopen Hkey.
  rewrite save_to_csv_unfold; [|by destruct before|done].
  rewrite (rows_loop_failing filename before _ after (KeyError key)).
  - by rewrite <- !app_assoc.
  - intros tr0. by apply paper_row_missing_key.
Qed.

Lemma save_to_csv_missing_key_witness :
  save_to_csv env_two_ids
    ((to_dict <$> [paper_jane]) ++ delete "date" (to_dict paper_bare) :: []) "output.csv" []
  = (Raise (KeyError "date"),
     [] ++ [EvOpen "output.csv"; EvWriteRow "output.csv" (PyStr <$> headers)]
        ++ ((fun p => EvWriteRow "output.csv" (row_cells p)) <$> [paper_jane])
        ++ [EvClose "output.csv"]).
Proof.
  apply (save_to_csv_missing_key env_two_ids [paper_jane] paper_bare "date" []
           "output.csv" []); [reflexivity|].
  unfold headers. set_solver.
Defined.

(** A record whose authors are not a list: [None] stops the export with
    [TypeError] at that record, like a missing key does; a [str] is
    accepted and joined character by character. *)
Theorem save_to_csv_authors_not_a_list env before p after filename tr :
  can_open env filename = true ->
  save_to_csv env ((to_dict <$> before) ++ <["authors" := PyNone]> (to_dict p) :: after)
    filename tr
  = (Raise TypeError,
     tr ++ [EvOpen filename; EvWriteRow filename (PyStr <$> headers)]
        ++ ((fun p => EvWriteRow filename (row_cells p)) <$> before)
        ++ [EvClose filename])
  /\ (forall names tr0,
        paper_row filename (<["authors" := PyStr names]> (to_dict p)) tr0
        = (Return tt,
           tr0 ++ [EvWriteRow filename
                     [PyStr (rec_id p); of_opt (rec_title p); of_opt (rec_date p);
                      PyStr (String.concat "; " (chars names));
                      PyStr (String.concat "; " (rec_affiliations p));
                      py_or (of_opt (rec_email p)) (PyStr "N/A")]])).
Proof.
  intros Hopen. split.
  - rewrite save_to_csv_unfold; [|by destruct before|done].
    rewrite (rows_loop_failing filename before _ after TypeError).
    + by rewrite <- !app_assoc.
    + intros tr0. destruct p. reflexivity.
  - intros names tr0. destruct p. reflexivity.
Qed.

Lemma save_to_csv_authors_not_a_list_witness :
  save_to_csv env_two_ids
    ((to_dict <$> []) ++ <["authors" := PyNone]> (to_dict paper_jane) :: []) "output.csv" []
  = (Raise TypeError,
     [] ++ [EvOpen "output.csv"; EvWriteRow "output.csv" (PyStr <$> headers)]
        ++ ((fun p => EvWriteRow "output.csv" (row_cells p)) <$> [])
        ++ [EvClose "output.csv"]).
Proof.
  apply (save_to_csv_authors_not_a_list env_two_ids [] paper_jane [] "output.csv" []).
  reflexivity.
Defined.

(** ** Fetch and export together *)





(** ** The main program *)

Lemma search_papers_decoded env query max_results tr response tr1 fields inner value :
  strip query <> "" ->
  safe_request env (BASE_URL +:+ "/esearch.fcgi")
    [("db", PyStr "pubmed"); ("term", PyStr query);
     ("retmax", PyInt max_results); ("retmode", PyStr "json")] 3 2 tr
  = (Return response, tr1) ->
  json_loads env (content response) = Some (JObj fields) ->
  assoc "esearchresult" fields = Some (JObj inner) ->
  assoc "idlist" inner = Some value ->
  search_papers env query max_results tr
  = (Return value,
     if json_truthy value then tr1
     else tr1 ++ [EvLog INFO "No papers found for the given query."]).
Proof.
  intros Hq Hreq Hjson Hres Hid.
  assert (truthy (PyStr (strip query)) = true) as Ht.
  { simpl. destruct (String.eqb_spec (strip query) ""); [done|reflexivity]. }
  unfold search_papers. rewrite Ht. cbn [negb]. cbv zeta.
  rewrite (bind_Return _ _ _ _ _ Hreq).
  unfold response_json. rewrite Hjson.
  unfold bind, ret, json_get. rewrite Hres. simpl. rewrite Hid. simpl.
  by destruct (json_truthy value).
Qed.

Lemma id_strings_fmap ids : id_strings (JStr <$> ids) = Some ids.
Proof.
  induction ids as [|i ids IH]; [done|].
  rewrite fmap_cons. cbn [id_strings]. by rewrite IH.
Qed.

(** The main program ends without fetching or writing anything when there
    is nothing to fetch: for a whitespace-only query it leaves the error
    record of the search and its own informational record, with no
    request; for a payload whose identifier list is empty it leaves the
    two informational records after the search request. *)
Theorem main_without_results env args tr :
  (whitespace_only (arg_query args) = true ->
   main env args tr
   = (Return (Some tt),
      tr ++ [EvLog ERROR "Search query cannot be empty.";
             EvLog INFO "No papers found. Exiting..."]))
  /\ (forall response tr1 fields inner,
        strip (arg_query args) <> "" ->
        safe_request env (BASE_URL +:+ "/esearch.fcgi")
          [("db", PyStr "pubmed"); ("term", PyStr (arg_query args));
           ("retmax", PyInt (arg_max_results args)); ("retmode", PyStr "json")] 3 2 tr
        = (Return response, tr1) ->
        json_loads env (content response) = Some (JObj fields) ->
        assoc "esearchresult" fields = Some (JObj inner) ->
        assoc "idlist" inner = Some (JArr []) ->
        main env args tr
        = (Return (Some tt),
           tr1 ++ [EvLog INFO "No papers found for the given query.";
                   EvLog INFO "No papers found. Exiting..."])).
Proof.
  split.
  - intros Hw. unfold main, search_papers.
    rewrite (strip_whitespace_only _ Hw). cbn. by rewrite <- app_assoc.
  - intros response tr1 fields inner Hq Hreq Hjson Hres Hid.
    unfold main.
    rewrite (bind_Return _ _ _ _ _
               (search_papers_decoded env _ _ tr response tr1 fields inner (JArr [])
                  Hq Hreq Hjson Hres Hid)).
    cbn. by rewrite <- app_assoc.
Qed.

Lemma main_without_results_witness :
  main env_two_ids {| arg_query := "  "; arg_file := "output.csv";
                      arg_debug := false; arg_max_results := 10 |} []
  = (Return (Some tt),
     [] ++ [EvLog ERROR "Search query cannot be empty.";
            EvLog INFO "No papers found. Exiting..."])
  /\ main (env_search (JObj [("esearchresult", JObj [("idlist", JArr [])])]))
       {| arg_query := "cancer"; arg_file := "output.csv";
          arg_debug := false; arg_max_results := 10 |} []
     = (Return (Some tt),
        [EvGet (BASE_URL +:+ "/esearch.fcgi")
           [("db", PyStr "pubmed"); ("term", PyStr "cancer");
            ("retmax", PyInt 10); ("retmode", PyStr "json")]]
        ++ [EvLog INFO "No papers found for the given query.";
            EvLog INFO "No papers found. Exiting..."]).
Proof.
  split.
  - apply (proj1 (main_without_results env_two_ids
                    {| arg_query := "  "; arg_file := "output.csv";
                       arg_debug := false; arg_max_results := 10 |} [])).
    reflexivity.
  - apply (proj2 (main_without_results
                    (env_search (JObj [("esearchresult", JObj [("idlist", JArr [])])]))
                    {| arg_query := "cancer"; arg_file := "output.csv";
                       arg_debug := false; arg_max_results := 10 |} [])
                 {| status_code := 200; content := "payload" |}
                 [EvGet (BASE_URL +:+ "/esearch.fcgi")
                    [("db", PyStr "pubmed"); ("term", PyStr "cancer");
                     ("retmax", PyInt 10); ("retmode", PyStr "json")]]
                 [("esearchresult", JObj [("idlist", JArr [])])]
                 [("idlist", JArr [])]
                 ltac:(discriminate) eq_refl eq_refl eq_refl eq_refl).
Defined.

(** With a payload whose identifier list is a list of [str] that is not
    empty, the main program hands those identifiers, in the order of the
    server, to the fetch and export steps and ends as they end: it adds no
    event, a normal end is a normal end and an exception leaves the
    program. *)
Theorem main_with_results env args tr response tr1 fields inner ids :
  strip (arg_query args) <> "" ->
  safe_request env (BASE_URL +:+ "/esearch.fcgi")
    [("db", PyStr "pubmed"); ("term", PyStr (arg_query args));
     ("retmax", PyInt (arg_max_results args)); ("retmode", PyStr "json")] 3 2 tr
  = (Return response, tr1) ->
  json_loads env (content response) = Some (JObj fields) ->
  assoc "esearchresult" fields = Some (JObj inner) ->
  assoc "idlist" inner = Some (JArr (JStr <$> ids)) ->
  ids <> [] ->
  main env args tr
  = match fetch_and_save env ids (arg_file args) tr1 with
    | (Return _, tr2) => (Return (Some tt), tr2)
    | (Raise e, tr2) => (Raise e, tr2)
    end.
Proof.
  intros Hq Hreq Hjson Hres Hid Hne. unfold main.
  rewrite (bind_Return _ _ _ _ _
             (search_papers_decoded env _ _ tr response tr1 fields inner _
                Hq Hreq Hjson Hres Hid)).
  destruct ids as [|i ids]; [done|].
  assert (json_truthy (JArr (JStr <$> i :: ids)) = true) as -> by reflexivity.
  cbn [negb]. unfold py_iter, bind at 1, ret at 1.
  rewrite id_strings_fmap. unfold bind, ret.
  by destruct (fetch_and_save env (i :: ids) (arg_file args) tr1) as [[[]|e] tr2].
Qed.

Lemma main_with_results_witness :
  main env_two_ids {| arg_query := "cancer"; arg_file := "output.csv";
                      arg_debug := false; arg_max_results := 10 |} []
  = match fetch_and_save env_two_ids ["31452104"; "29860986"] "output.csv"
            [EvGet (BASE_URL +:+ "/esearch.fcgi")
               [("db", PyStr "pubmed"); ("term", PyStr "cancer");
                ("retmax", PyInt 10); ("retmode", PyStr "json")]] with
    | (Return _, tr2) => (Return (Some tt), tr2)
    | (Raise e, tr2) => (Raise e, tr2)
    end.
Proof.
  apply (main_with_results env_two_ids
           {| arg_query := "cancer"; arg_file := "output.csv";
              arg_debug := false; arg_max_results := 10 |} []
           {| status_code := 200; content := "payload" |}
           [EvGet (BASE_URL +:+ "/esearch.fcgi")
              [("db", PyStr "pubmed"); ("term", PyStr "cancer");
               ("retmax", PyInt 10); ("retmode", PyStr "json")]]
           [("esearchresult", JObj [("count", JStr "2");
                                    ("idlist", JArr [JStr "31452104"; JStr "29860986"])])]
           [("count", JStr "2"); ("idlist", JArr [JStr "31452104"; JStr "29860986"])]
           ["31452104"; "29860986"]
           ltac:(discriminate) eq_refl eq_refl eq_refl eq_refl ltac:(discriminate)).
Defined.
